(** * CropSight: the field-analysis endpoint and the zone list of the results page

    Shallow embedding of [src/app/api/analyze_field/route.ts] (the [POST]
    handler and [generateAIInsights]) and of the "Field Zones" card of
    [src/frontend/app/page.tsx].

    Conventions of the embedding.
    - A JavaScript number is the rational value ([Q]) of an IEEE binary64
      double, or an infinity; every literal and every arithmetic operation
      of the handler is rounded to the nearest double by [binary64]
      (magnitudes stay far below the overflow threshold there). A number
      literal of a request is rounded, or overflows, when the request is
      parsed ([request_json]), and an infinity is written as [null] when an
      answer is serialised ([wire]).
    - A value read from the request is a [JSON] value; [undefined] is [None]
      in [option JSON].
    - The handler is sequential code that consumes [Math.random()] draws and
      [new Date()] readings in program order and that may throw: it is written
      in a small state-and-exception monad [M] over the counters of draws
      and clock readings; the random generator, the clock and the network
      are the oracles of an [Env], [JSON.parse] and the printing of numbers
      those of a [Runtime].
    - A calendar date (the [YYYY-MM-DD] prefix of [toISOString()]) is a day
      number in [Z]; [setDate(getDate() - k)] moves it back by [k] days.
      The shift of up to a day between the local day that [setDate] moves
      and the UTC day that [toISOString] prints is not modelled, so that
      nothing is stated here about dates one day apart. *)

From Stdlib Require Import QArith Qround Qabs Qpower ZArith Lia Lqa Ascii.
From stdpp Require Import gmap strings list pretty.

Set Warnings "-register-all".

(** ** JSON values and the JavaScript operations the handler applies to them *)

Inductive JSON : Type :=
  | JNull
  | JBool (b : bool)
  | JNum (q : Q)
  | JInfinity (negative : bool)
  | JStr (s : string)
  | JArr (l : list JSON)
  | JObj (m : gmap string JSON).

(** [JInfinity] is the number that a literal too large for a double parses
    to; no JSON text denotes it. *)

(** A JavaScript value that came out of JSON data: [None] is [undefined]. *)
Abbreviation JSVal := (option JSON).

(** ToBoolean: [undefined], [null], [false], [0] and the empty string are
    falsy; infinities, arrays and objects are truthy. *)
Definition truthy (v : JSVal) : bool :=
  match v with
  | None => false
  | Some JNull => false
  | Some (JBool b) => b
  | Some (JNum q) => negb (Qeq_bool q 0)
  | Some (JInfinity _) => true
  | Some (JStr s) => negb (String.eqb s "")
  | Some (JArr _) => true
  | Some (JObj _) => true
  end.

(** [a || d] for a default [d] that is a JSON value. *)
Definition or_default (a : JSVal) (d : JSON) : JSON :=
  match a with
  | Some j => if truthy a then j else d
  | None => d
  end.

(** [v.k] for a property name [k] that no built-in prototype defines:
    [None] is the TypeError thrown on [undefined] and [null]. *)
Definition get (v : JSVal) (k : string) : option JSVal :=
  match v with
  | None => None
  | Some JNull => None
  | Some (JObj m) => Some (m !! k)
  | Some _ => Some None
  end.

(** [v[0]]: first element of an array, first character of a string,
    property ["0"] of an object. *)
Definition get0 (v : JSVal) : option JSVal :=
  match v with
  | None => None
  | Some JNull => None
  | Some (JObj m) => Some (m !! "0"%string)
  | Some (JArr l) => Some (head l)
  | Some (JStr (String c _)) => Some (Some (JStr (String c EmptyString)))
  | Some _ => Some None
  end.

Section ToString.
(** Number::toString of the platform. *)
Variable number_toString : Q -> string.

(** ToString of a JSON value, as a template literal applies it. An array
    is joined with commas, [null] elements printing as nothing; a plain
    object prints as [[object Object]] unless it has an own [toString]
    property, which (being data, not a function) makes the conversion
    throw a TypeError ([None]). *)
Fixpoint toStr (v : JSON) : option string :=
  match v with
  | JNull => Some "null"%string
  | JBool true => Some "true"%string
  | JBool false => Some "false"%string
  | JNum q => Some (number_toString q)
  | JInfinity false => Some "Infinity"%string
  | JInfinity true => Some "-Infinity"%string
  | JStr s => Some s
  | JArr l =>
      (fix join (l : list JSON) : option string :=
         match l with
         | [] => Some EmptyString
         | x :: rest =>
             match (match x with JNull => Some EmptyString | _ => toStr x end) with
             | None => None
             | Some s =>
                 match rest with
                 | [] => Some s
                 | _ :: _ =>
                     match join rest with
                     | None => None
                     | Some r => Some (s +:+ "," +:+ r)
                     end
                 end
             end
         end) l
  | JObj m =>
      match m !! "toString"%string with
      | Some _ => None
      | None => Some "[object Object]"%string
      end
  end.

Definition toStrV (v : JSVal) : option string :=
  match v with
  | None => Some "undefined"%string
  | Some j => toStr j
  end.
End ToString.

(** ** Numbers: IEEE binary64 arithmetic on rationals *)

Definition pow2 (k : Z) : Q := (2 ^ k)%Q.

(** The exponent [e] of the binade of a non-zero [q]:
    [2^e <= |q| < 2^(e+1)]. *)
Definition binade (q : Q) : Z :=
  let g := (Z.log2 (Z.abs (Qnum q)) - Z.log2 (Zpos (Qden q)))%Z in
  if Qle_bool (pow2 g) (Qabs q) then g else (g - 1)%Z.

(** The nearest integer, a tie going to the even one. *)
Definition round_half_even (x : Q) : Z :=
  let f := Qfloor x in
  match (x - inject_Z f ?= 1 # 2)%Q with
  | Lt => f
  | Gt => (f + 1)%Z
  | Eq => if Z.even f then f else (f + 1)%Z
  end.

(** Rounding to the nearest double, ties to even: 53 significant bits in
    the normal range, multiples of [2^-1074] below it. The exponent is not
    bounded above: a result of magnitude [2^1024] or more stands for an
    overflow. *)
Definition binary64 (q : Q) : Q :=
  if Qeq_bool q 0 then 0%Q
  else
    let k := (Z.max (binade q) (-1022) - 52)%Z in
    Qred (inject_Z (round_half_even (q / pow2 k)) * pow2 k).

(** A decimal literal of the source, and the operations [+], [-] and [*]
    on doubles. *)
Definition lit (q : Q) : Q := binary64 q.
Definition fadd (a b : Q) : Q := binary64 (a + b).
Definition fsub (a b : Q) : Q := binary64 (a - b).
Definition fmul (a b : Q) : Q := binary64 (a * b).

(** ** The platform and the monad of the handler *)

(** What [fetch] to the text-generation service can do: reject (network
    error), or resolve to a response with its [ok] flag and the outcome of
    [response.json()] ([None]: reading the body throws). *)
Inductive FetchOutcome : Type :=
  | FetchRejected
  | FetchResponse (ok : bool) (json : option JSON).

(** The built-in functions of the JavaScript runtime that the handler
    calls and that this development does not implement. *)
Record Runtime : Type := {
  JSON_parse : string -> option JSON;
  Number_toString : Q -> string
}.

(** What one invocation observes of the outside world. *)
Record Env : Type := {
  (** the result of the k-th call of [Math.random()] of the invocation *)
  Math_random : nat -> Q;
  (** the calendar day read by the k-th [new Date()] of the invocation *)
  Date_now : nat -> Z;
  (** [fetch], by the Authorization header and the prompt sent *)
  fetch : string -> string -> FetchOutcome
}.

(** Draws and clock readings consumed so far. *)
Record World : Type := { draws : nat; reads : nat }.

(** A computation from a world to an outcome ([None]: an exception was
    thrown) and the world it leaves. *)
Definition M (A : Type) : Type := World -> option A * World.

#[global] Instance M_ret : MRet M := fun A (a : A) (w : World) => (Some a, w).

#[global] Instance M_bind : MBind M := fun A B (k : A -> M B) (c : M A) (w : World) =>
  match c w with
  | (None, w') => (None, w')
  | (Some a, w') => k a w'
  end.

Definition throw {A} : M A := fun w => (None, w).

(** [try { c } catch { return h }]. *)
Definition try_catch {A} (c : M A) (h : A) : M A :=
  fun w => match c w with
           | (None, w') => (Some h, w')
           | (Some a, w') => (Some a, w')
           end.

(** An operation that either throws or returns, with no other effect. *)
Definition lift {A} (o : option A) : M A :=
  match o with
  | Some a => mret a
  | None => throw
  end.

Definition random (e : Env) : M Q :=
  fun w => (Some (Math_random e (draws w)), {| draws := S (draws w); reads := reads w |}).

Definition new_Date (e : Env) : M Z :=
  fun w => (Some (Date_now e (reads w)), {| draws := draws w; reads := S (reads w) |}).

(** [Array.from({ length: n }, (_, i) => f i)]. *)
Fixpoint from_indices {A} (f : nat -> M A) (i n : nat) : M (list A) :=
  match n with
  | O => mret []
  | S n' =>
      x ← f i;
      xs ← from_indices f (S i) n';
      mret (x :: xs)
  end.

Definition Array_from {A} (n : nat) (f : nat -> M A) : M (list A) :=
  from_indices f 0 n.

(** ** The response object *)

Record NdviStats : Type := {
  mean : Q;
  stddev : Q;
  min : Q;
  max : Q
}.

Record NdviTimeSeries : Type := {
  dates : list Z;
  ndvi_values : list Q;
  mean_ndvi : Q;
  trend : string
}.

Record RainfallData : Type := {
  rainfall_dates : list Z;
  rainfall_values : list Q;
  total_rainfall : Q;
  avg_daily_rainfall : Q;
  max_daily_rainfall : Q
}.

(** [MockResponse] of the handler. A property whose value is [undefined]
    ([crop_type] of a body without one) or that was never set
    ([ai_insights]) is [None]. *)
Record MockResponse : Type := {
  ndvi_stats : NdviStats;
  zones_identified : JSON;
  processing_time : Q;
  recommendations : list string;
  ndvi_time_series : NdviTimeSeries;
  rainfall_data : RainfallData;
  crop_type : JSVal;
  crop_growth_stage : JSVal;
  ai_insights : JSVal
}.

(** [mockResponse.ai_insights = v]. *)
Definition set_ai_insights (r : MockResponse) (v : JSON) : MockResponse :=
  {| ndvi_stats := ndvi_stats r;
     zones_identified := zones_identified r;
     processing_time := processing_time r;
     recommendations := recommendations r;
     ndvi_time_series := ndvi_time_series r;
     rainfall_data := rainfall_data r;
     crop_type := crop_type r;
     crop_growth_stage := crop_growth_stage r;
     ai_insights := Some v |}.

(** What the route answers. *)
Inductive HttpResponse : Type :=
  | Json200 (r : MockResponse)
  | Error500 (error : string).

(** ** [generateAIInsights] *)

Definition nl : string := String "010"%char EmptyString.

(** The prompt of [generateAIInsights]: the template literal, whose
    interpolations convert their values to strings and may throw. *)
Definition build_prompt (rt : Runtime) (analysisData : MockResponse) : option string :=
  let num := Number_toString rt in
  let stats := ndvi_stats analysisData in
  zones ← toStr num (zones_identified analysisData);
  crop ← toStrV num (crop_type analysisData);
  stage ← toStrV num (crop_growth_stage analysisData);
  Some (nl +:+
    "You are an agricultural expert analyzing NDVI field data. Based on the following analysis results, provide detailed insights:" +:+ nl +:+
    nl +:+
    "Field Analysis Data:" +:+ nl +:+
    "- Mean NDVI: " +:+ num (mean stats) +:+ nl +:+
    "- NDVI Range: " +:+ num (min stats) +:+ " to " +:+ num (max stats) +:+ nl +:+
    "- Standard Deviation: " +:+ num (stddev stats) +:+ nl +:+
    "- Number of Management Zones: " +:+ zones +:+ nl +:+
    "- Crop Type: " +:+ crop +:+ nl +:+
    "- Growth Stage: " +:+ stage +:+ nl +:+
    "- NDVI Trend: " +:+ trend (ndvi_time_series analysisData) +:+ nl +:+
    "- Total Rainfall: " +:+ num (total_rainfall (rainfall_data analysisData)) +:+ "mm" +:+ nl +:+
    nl +:+
    "Please provide:" +:+ nl +:+
    "1. A comprehensive field analysis report (2-3 paragraphs)" +:+ nl +:+
    "2. Specific management suggestions (3-5 actionable items)" +:+ nl +:+
    "3. Risk assessment for potential issues" +:+ nl +:+
    "4. A detailed management plan for the next 30 days" +:+ nl +:+
    nl +:+
    "Format your response as JSON with keys: report, suggestions (array), risk_assessment, management_plan" +:+ nl).

(** The object returned when the model's answer is not JSON; [report] is
    the raw answer (no [report] key when the answer is [undefined]). *)
Definition fallback_insights (aiResponse : JSVal) : JSON :=
  let fixed : gmap string JSON :=
    {[ "suggestions"%string :=
         JArr [ JStr "Monitor field conditions regularly";
                JStr "Consider soil testing in low-performing areas";
                JStr "Implement variable rate application based on zones" ];
       "risk_assessment"%string :=
         JStr "Based on the analysis, monitor for potential stress indicators.";
       "management_plan"%string :=
         JStr "Continue current management practices and monitor field development." ]} in
  JObj match aiResponse with
       | Some v => <[ "report"%string := v ]> fixed
       | None => fixed
       end.

(** [generateAIInsights(analysisData, groqApiKey)]; [JNull] is [null]. *)
Definition generateAIInsights (rt : Runtime) (e : Env) (analysisData : MockResponse)
    (groqApiKey : JSON) : M JSON :=
  try_catch
    (prompt ← lift (build_prompt rt analysisData);
     key ← lift (toStr (Number_toString rt) groqApiKey);
     match fetch e ("Bearer " +:+ key) prompt with
     | FetchRejected => throw
     | FetchResponse ok json =>
         if negb ok then throw
         else
           data ← lift json;
           choices ← lift (get (Some data) "choices");
           first ← lift (get0 choices);
           message ← lift (get first "message");
           aiResponse ← lift (get message "content");
           try_catch
             (text ← lift (toStrV (Number_toString rt) aiResponse);
              lift (JSON_parse rt text))
             (fallback_insights aiResponse)
     end)
    JNull.

(** ** [POST] *)

(** [a > b] on numbers. *)
Definition Qgtb (a b : Q) : bool := negb (Qle_bool a b).

(** The object literal [mockResponse], its property values evaluated in
    source order. *)
Definition build_mockResponse (rt : Runtime) (e : Env) (body : JSON) : M MockResponse :=
  r_mean ← random e;
  r_stddev ← random e;
  r_min ← random e;
  r_max ← random e;
  num_zones ← lift (get (Some body) "num_zones");
  r_time ← random e;
  num_zones' ← lift (get (Some body) "num_zones");
  zones_text ← lift (toStr (Number_toString rt) (or_default num_zones' (JNum 3)));
  ts_dates ← Array_from 7 (fun i =>
    date ← new_Date e;
    mret (date - (6 - Z.of_nat i) * 15)%Z);
  ts_values ← Array_from 7 (fun i =>
    r ← random e;
    mret (fadd (fadd (lit 0.3) (fmul (inject_Z (Z.of_nat i)) (lit 0.1)))
               (fmul (fsub r (lit 0.5)) (lit 0.1))));
  r_trend ← random e;
  rf_dates ← Array_from 10 (fun i =>
    date ← new_Date e;
    mret (date - (9 - Z.of_nat i))%Z);
  rf_values ← Array_from 10 (fun _ =>
    r ← random e;
    mret (fmul r (lit 20)));
  r_total ← random e;
  r_avg ← random e;
  r_maxd ← random e;
  crop ← lift (get (Some body) "crop_type");
  stage ← lift (get (Some body) "crop_growth_stage");
  mret {|
    ndvi_stats := {|
      mean := fadd (lit 0.65) (fmul (fsub r_mean (lit 0.5)) (lit 0.2));
      stddev := fadd (lit 0.12) (fmul (fsub r_stddev (lit 0.5)) (lit 0.05));
      min := fadd (lit 0.25) (fmul (fsub r_min (lit 0.5)) (lit 0.1));
      max := fadd (lit 0.85) (fmul (fsub r_max (lit 0.5)) (lit 0.1)) |};
    zones_identified := or_default num_zones (JNum 3);
    processing_time := fadd (lit 1.5) r_time;
    recommendations := [
      "Field shows good overall vegetation health based on NDVI analysis.";
      "Focus on maintaining current management practices in high-vigor zones.";
      "Consider variable rate application based on the " +:+ zones_text +:+
        " identified management zones.";
      "Take soil samples from each zone to determine specific nutrient requirements.";
      "Monitor low-vigor areas for potential stress factors or soil compaction." ]%string;
    ndvi_time_series := {|
      dates := ts_dates;
      ndvi_values := ts_values;
      mean_ndvi := lit 0.65;
      trend := if Qgtb r_trend (lit 0.5) then "increasing" else "decreasing" |};
    rainfall_data := {|
      rainfall_dates := rf_dates;
      rainfall_values := rf_values;
      total_rainfall := fadd (lit 43.2) (fmul r_total (lit 20));
      avg_daily_rainfall := fadd (lit 6.17) (fmul r_avg (lit 3));
      max_daily_rainfall := fadd (lit 15.3) (fmul r_maxd (lit 10)) |};
    crop_type := crop;
    crop_growth_stage := stage;
    ai_insights := None |}.

(** The [try] block of [POST]; [request_json] is the outcome of
    [request.json()], [None] when the body is not JSON. *)
Definition handler (rt : Runtime) (e : Env) (request_json : option JSON) : M MockResponse :=
  body ← lift request_json;
  (* the two-second wait that simulates processing has no effect on the answer *)
  mockResponse ← build_mockResponse rt e body;
  use_ai_insights ← lift (get (Some body) "use_ai_insights");
  if truthy use_ai_insights then
    groq_api_key ← lift (get (Some body) "groq_api_key");
    match groq_api_key with
    | Some key =>
        if truthy groq_api_key then
          aiInsights ← generateAIInsights rt e mockResponse key;
          if truthy (Some aiInsights)
          then mret (set_ai_insights mockResponse aiInsights)
          else mret mockResponse
        else mret mockResponse
    | None => mret mockResponse
    end
  else mret mockResponse.

Definition POST (rt : Runtime) (e : Env) (request_json : option JSON) : HttpResponse :=
  match handler rt e request_json {| draws := 0; reads := 0 |} with
  | (Some mockResponse, _) => Json200 mockResponse
  | (None, _) => Error500 "Analysis failed"
  end.

(** ** The "Field Zones" card of the results page *)

(** The label of the row of index [i] when [zones_identified] zones are
    shown. *)
Definition zone_label (i : nat) (zones_identified : Q) : string :=
  if Nat.eqb i 0 then "Low vigor"
  else if Qeq_bool (inject_Z (Z.of_nat i)) (zones_identified - 1) then "High vigor"
  else "Moderate vigor".

(** The rows [Array.from({ length: zones_identified }, (_, i) => ...)]:
    zone number [i + 1] with its label. *)
Definition field_zones (zones_identified : Q) : list (nat * string) :=
  map (fun i => (i + 1, zone_label i zones_identified))
      (seq 0 (Z.to_nat (Qfloor zones_identified))).

(** ** Concrete runtimes and environments, for running the handler *)

(** A runtime that prints the integer part of a number in decimal (exact
    on integers, as the zone counts of the runs below are) and whose
    parser knows the literal [null] only. *)
Definition sample_runtime : Runtime := {|
  JSON_parse := fun s => if String.eqb s "null" then Some JNull else None;
  Number_toString := fun q => pretty (Qfloor q)
|}.

(** Every draw is [r], every clock reading is [day], every call of the
    text-generation service ends as [o]. *)
Definition const_env (r : Q) (day : Z) (o : FetchOutcome) : Env := {|
  Math_random := fun _ => r;
  Date_now := fun _ => day;
  fetch := fun _ _ => o
|}.

Definition env_low : Env := const_env 0 20000 FetchRejected.
Definition env_high : Env := const_env 0.9 20000 FetchRejected.

Definition empty_body : JSON := JObj ∅.

(** ** Closed forms used by the proofs *)

Definition init : World := {| draws := 0; reads := 0 |}.

(** [body.k] once [body] is known not to be [null]. *)
Definition prop (body : JSON) (k : string) : JSVal :=
  match body with
  | JObj m => m !! k
  | _ => None
  end.

(** The zone count of the answer: [body.num_zones || 3]. *)
Definition zones_of (body : JSON) : JSON :=
  or_default (prop body "num_zones") (JNum 3).

(** The object that [build_mockResponse] returns from the initial world,
    by the index of each draw and clock reading; [zones_text] is the zone
    count as printed in the third recommendation. *)
Definition mockResponse_at (e : Env) (body : JSON) (zones_text : string) : MockResponse := {|
  ndvi_stats := {|
    mean := fadd (lit 0.65) (fmul (fsub (Math_random e 0) (lit 0.5)) (lit 0.2));
    stddev := fadd (lit 0.12) (fmul (fsub (Math_random e 1) (lit 0.5)) (lit 0.05));
    min := fadd (lit 0.25) (fmul (fsub (Math_random e 2) (lit 0.5)) (lit 0.1));
    max := fadd (lit 0.85) (fmul (fsub (Math_random e 3) (lit 0.5)) (lit 0.1)) |};
  zones_identified := zones_of body;
  processing_time := fadd (lit 1.5) (Math_random e 4);
  recommendations := [
    "Field shows good overall vegetation health based on NDVI analysis.";
    "Focus on maintaining current management practices in high-vigor zones.";
    "Consider variable rate application based on the " +:+ zones_text +:+
      " identified management zones.";
    "Take soil samples from each zone to determine specific nutrient requirements.";
    "Monitor low-vigor areas for potential stress factors or soil compaction." ]%string;
  ndvi_time_series := {|
    dates := map (fun i => (Date_now e i - (6 - Z.of_nat i) * 15)%Z) (seq 0 7);
    ndvi_values :=
      map (fun i => fadd (fadd (lit 0.3) (fmul (inject_Z (Z.of_nat i)) (lit 0.1)))
                         (fmul (fsub (Math_random e (5 + i)) (lit 0.5)) (lit 0.1)))
          (seq 0 7);
    mean_ndvi := lit 0.65;
    trend := if Qgtb (Math_random e 12) (lit 0.5) then "increasing" else "decreasing" |};
  rainfall_data := {|
    rainfall_dates := map (fun i => (Date_now e (7 + i) - (9 - Z.of_nat i))%Z) (seq 0 10);
    rainfall_values := map (fun i => fmul (Math_random e (13 + i)) (lit 20)) (seq 0 10);
    total_rainfall := fadd (lit 43.2) (fmul (Math_random e 23) (lit 20));
    avg_daily_rainfall := fadd (lit 6.17) (fmul (Math_random e 24) (lit 3));
    max_daily_rainfall := fadd (lit 15.3) (fmul (Math_random e 25) (lit 10)) |};
  crop_type := prop body "crop_type";
  crop_growth_stage := prop body "crop_growth_stage";
  ai_insights := None |}.

(** The request asks for AI insights: [body.use_ai_insights &&
    body.groq_api_key] is truthy. *)
Definition ai_requested (body : JSON) : bool :=
  truthy (prop body "use_ai_insights") && truthy (prop body "groq_api_key").

(** The call of the text-generation service failed: network error, a
    status that is not ok, or a body that cannot be read. *)
Definition fetch_failed (o : FetchOutcome) : Prop :=
  match o with
  | FetchRejected => True
  | FetchResponse ok json => ok = false \/ json = None
  end.

(** Each element is smaller than the next. *)
Fixpoint ascending {A} (lt : A -> A -> Prop) (l : list A) : Prop :=
  match l with
  | [] => True
  | a :: t =>
      match t with
      | [] => True
      | b :: _ => lt a b /\ ascending lt t
      end
  end.

(** The sum and the largest element of a list of samples, the aggregates
    the rainfall figures are compared with. *)
Definition Qsum (l : list Q) : Q := fold_right Qplus 0%Q l.

Definition Qmaximum (l : list Q) : Q :=
  match l with
  | [] => 0%Q
  | a :: t => fold_left (fun m x => if Qle_bool m x then x else m) t a
  end.

(** The AI step of [handler], applied to the object built before it. *)
Definition ai_step (rt : Runtime) (e : Env) (body : JSON) (r : MockResponse)
    (w : World) : MockResponse :=
  match prop body "groq_api_key" with
  | Some key =>
      if ai_requested body then
        match generateAIInsights rt e r key w with
        | (Some ai, _) => if truthy (Some ai) then set_ai_insights r ai else r
        | (None, _) => r
        end
      else r
  | None => r
  end.

(** ** Assumptions on the environment and sample requests *)

(** Every draw of the invocation is a uniform sample of [[0, 1)]. *)
Definition unit_draws (e : Env) : Prop :=
  forall k, (0 <= Math_random e k /\ Math_random e k < 1)%Q.

(** The answers of the two sample environments to the empty object. *)
Definition answer_low : MockResponse := mockResponse_at env_low empty_body "3".
Definition answer_high : MockResponse := mockResponse_at env_high empty_body "3".

(** Between two consecutive readings the clock does not go back by
    fifteen days or more. *)
Definition clock_steady (e : Env) : Prop :=
  forall k, (Date_now e k - 15 < Date_now e (S k))%Z.

(** Requests with a zone count of [0] and of [-1]. *)
Definition body_zero_zones : JSON := JObj {[ "num_zones"%string := JNum 0 ]}.
Definition body_negative_zones : JSON := JObj {[ "num_zones"%string := JNum (-1) ]}.

(** A zone count whose conversion to a string throws. *)
Definition body_unprintable_zones : JSON :=
  JObj {[ "num_zones"%string := JObj {[ "toString"%string := JNum 1 ]} ]}.

(** A body with the three echoed properties. *)
Definition body_wheat : JSON :=
  JObj {[ "num_zones"%string := JNum 5;
          "crop_type"%string := JStr "Wheat";
          "crop_growth_stage"%string := JStr "Vegetative" ]}.

(** The properties of a request that asks for AI insights. *)
Definition body_with_ai : gmap string JSON :=
  {[ "use_ai_insights"%string := JBool true;
     "groq_api_key"%string := JStr "key";
     "crop_type"%string := JStr "Wheat" ]}.

(** ** The answer of the text-generation service *)

(** [data.choices[0].message.content]; [None] when reading it throws. *)
Definition reply_content (data : JSON) : option JSVal :=
  choices ← get (Some data) "choices";
  first ← get0 choices;
  message ← get first "message";
  get message "content".

(** A value that a template literal can convert to a string. *)
Definition printable (rt : Runtime) (v : JSVal) : Prop :=
  is_Some (toStrV (Number_toString rt) v).

(** A runtime like [sample_runtime] whose parser also knows [true] and the
    empty object. *)
Definition literal_runtime : Runtime := {|
  JSON_parse := fun s =>
    if String.eqb s "null" then Some JNull
    else if String.eqb s "true" then Some (JBool true)
    else if String.eqb s "{}" then Some (JObj ∅)
    else None;
  Number_toString := fun q => pretty (Qfloor q)
|}.


(** A runtime whose parser knows one literal, too large for a double. *)
Definition huge_number_runtime : Runtime := {|
  JSON_parse := fun s => if String.eqb s "1e999" then Some (JInfinity false) else None;
  Number_toString := fun q => pretty (Qfloor q)
|}.

(** The answer of the service whose message content is [content]:
    [{"choices": [{"message": {"content": content}}]}]. *)
Definition chat_completion (content : JSON) : JSON :=
  JObj {[ "choices"%string :=
            JArr [ JObj {[ "message"%string := JObj {[ "content"%string := content ]} ]} ] ]}.

(** An environment whose service answers [data] with an ok status. *)
Definition env_answering (data : JSON) : Env :=
  const_env 0.9 20000 (FetchResponse true (Some data)).

(** ** The results page: request, charts, state *)

Module Form.
(** [AnalysisRequest], the state of the form. [latitude] and [longitude]
    come out of [Number.parseFloat] and are [None] when that gives [NaN];
    [groq_api_key] is optional. *)
Record AnalysisRequest : Type := {
  latitude : option Q;
  longitude : option Q;
  buffer_size : Q;
  start_date : string;
  end_date : string;
  clustering_method : string;
  num_zones : Q;
  crop_type : string;
  crop_growth_stage : string;
  eps_value : Q;
  min_samples : Q;
  bandwidth : Q;
  groq_api_key : option string;
  use_ai_insights : bool
}.
End Form.

(** A finite number is sent as itself, [NaN] as [null]. *)
Definition json_number (x : option Q) : JSON :=
  match x with
  | Some q => JNum q
  | None => JNull
  end.

(** What the handler parses out of [JSON.stringify(formData)]: a property
    per field, an [undefined] key being left out. *)
Definition body_of_form (formData : Form.AnalysisRequest) : JSON :=
  let fields : gmap string JSON :=
    {[ "latitude"%string := json_number (Form.latitude formData);
       "longitude"%string := json_number (Form.longitude formData);
       "buffer_size"%string := JNum (Form.buffer_size formData);
       "start_date"%string := JStr (Form.start_date formData);
       "end_date"%string := JStr (Form.end_date formData);
       "clustering_method"%string := JStr (Form.clustering_method formData);
       "num_zones"%string := JNum (Form.num_zones formData);
       "crop_type"%string := JStr (Form.crop_type formData);
       "crop_growth_stage"%string := JStr (Form.crop_growth_stage formData);
       "eps_value"%string := JNum (Form.eps_value formData);
       "min_samples"%string := JNum (Form.min_samples formData);
       "bandwidth"%string := JNum (Form.bandwidth formData);
       "use_ai_insights"%string := JBool (Form.use_ai_insights formData) ]} in
  JObj match Form.groq_api_key formData with
       | Some key => <[ "groq_api_key"%string := JStr key ]> fields
       | None => fields
       end.

(** The initial state of the form, the two dates being those of the day
    the page is opened. *)
Definition initial_form (start_date end_date : string) : Form.AnalysisRequest := {|
  Form.latitude := Some 30.9%Q;
  Form.longitude := Some 75.8%Q;
  Form.buffer_size := 250;
  Form.start_date := start_date;
  Form.end_date := end_date;
  Form.clustering_method := "K-Means";
  Form.num_zones := 3;
  Form.crop_type := "Wheat";
  Form.crop_growth_stage := "Vegetative";
  Form.eps_value := 0.05;
  Form.min_samples := 10;
  Form.bandwidth := 0.1;
  Form.groq_api_key := Some EmptyString;
  Form.use_ai_insights := false
|}.

(** [formatNDVIData(dates, values)]: a chart point per date, with the
    value of the same index, [undefined] ([None]) past the end of
    [values]. The date keeps its day number. *)
Definition formatNDVIData (dates : list Z) (values : list Q) : list (Z * option Q) :=
  imap (fun index date => (date, values !! index)) dates.

(** [formatRainfallData(dates, values)]. *)
Definition formatRainfallData (dates : list Z) (values : list Q) : list (Z * option Q) :=
  imap (fun index date => (date, values !! index)) dates.

(** The hue of the dot of row [i] of the zone list:
    [(i * 360) / zones_identified]. *)
Definition zone_hue (i : nat) (zones_identified : Q) : Q :=
  (inject_Z (Z.of_nat i) * 360 / zones_identified)%Q.

(** The state of the page that [handleAnalyze] writes. *)
Record PageState : Type := {
  results : option MockResponse;
  loading : bool;
  error : option string;
  progress : Q;
  currentStep : string
}.

Definition setResults (v : option MockResponse) (st : PageState) : PageState :=
  {| results := v; loading := loading st; error := error st;
     progress := progress st; currentStep := currentStep st |}.

Definition setLoading (v : bool) (st : PageState) : PageState :=
  {| results := results st; loading := v; error := error st;
     progress := progress st; currentStep := currentStep st |}.

Definition setError (v : option string) (st : PageState) : PageState :=
  {| results := results st; loading := loading st; error := v;
     progress := progress st; currentStep := currentStep st |}.

Definition setProgress (v : Q) (st : PageState) : PageState :=
  {| results := results st; loading := loading st; error := error st;
     progress := v; currentStep := currentStep st |}.

Definition setCurrentStep (v : string) (st : PageState) : PageState :=
  {| results := results st; loading := loading st; error := error st;
     progress := progress st; currentStep := v |}.

(** A thrown value: an [Error] with its message, or something else. *)
Inductive Thrown : Type :=
  | ErrorObject (message : string)
  | OtherValue.

(** [err instanceof Error ? err.message : "An error occurred"]. *)
Definition error_message (err : Thrown) : string :=
  match err with
  | ErrorObject message => message
  | OtherValue => "An error occurred"
  end.

(** What the page's [fetch] of the endpoint can do: reject, or resolve to
    a response with its [ok] flag and the outcome of [response.json()]. *)
Inductive PageFetch : Type :=
  | PageFetchRejected (err : Thrown)
  | PageFetchResponse (ok : bool) (json : Thrown + MockResponse).

(** The progress messages of [handleAnalyze]. *)
Definition analysis_steps (use_ai_insights : bool) : list string :=
  [ "Fetching satellite imagery...";
    "Processing NDVI data...";
    "Performing clustering analysis...";
    "Analyzing rainfall patterns...";
    "Generating insights..." ]%string
  ++ (if use_ai_insights then ["Generating AI-powered report..."%string] else []).

(** The loop over the steps: message and progress of step [i] of [n]. *)
Fixpoint show_steps (steps : list string) (i : nat) (n : nat) (st : PageState) : PageState :=
  match steps with
  | [] => st
  | step :: rest =>
      show_steps rest (S i) n
        (setProgress ((inject_Z (Z.of_nat i) + 1) * (100 / inject_Z (Z.of_nat n)))
           (setCurrentStep step st))
  end.

(** The state of the page when [handleAnalyze] has run to its end,
    [reply] being what the request to the endpoint came to. *)
Definition handleAnalyze (formData : Form.AnalysisRequest) (reply : PageFetch)
    (st : PageState) : PageState :=
  let st := setCurrentStep "Initializing analysis..."
              (setProgress 0 (setError None (setLoading true st))) in
  let steps := analysis_steps (Form.use_ai_insights formData) in
  let st := show_steps steps 0 (length steps) st in
  let st :=
    match reply with
    | PageFetchRejected err => setError (Some (error_message err)) st
    | PageFetchResponse false _ => setError (Some "Analysis failed"%string) st
    | PageFetchResponse true (inl err) => setError (Some (error_message err)) st
    | PageFetchResponse true (inr data) =>
        setCurrentStep "Analysis complete!" (setResults (Some data) st)
    end in
  setProgress 100 (setLoading false st).

(** An environment that differs from [env_low] from the 27th draw and the
    18th clock reading on. *)
Definition env_low_then_high : Env := {|
  Math_random := fun k => if (k <? 26)%nat then 0%Q else 0.9%Q;
  Date_now := fun k => if (k <? 17)%nat then 20000%Z else 20001%Z;
  fetch := fun _ _ => FetchRejected
|}.

(** The reply the page gets when the endpoint answers [answer]. *)
Definition reply_of (answer : HttpResponse) : PageFetch :=
  match answer with
  | Json200 r => PageFetchResponse true (inr r)
  | Error500 _ => PageFetchResponse false (inl OtherValue)
  end.

(** The request did not come to an ok response with a readable body. *)
Definition reply_failed (reply : PageFetch) : Prop :=
  match reply with
  | PageFetchResponse true (inr _) => False
  | _ => True
  end.

Definition blank_page : PageState := {|
  results := None; loading := false; error := None; progress := 0; currentStep := EmptyString
|}.

(** ** The zone circles of the map *)

Definition zoneColors : list string :=
  [ "#ef4444"; "#f97316"; "#eab308"; "#22c55e"; "#3b82f6"; "#8b5cf6"; "#ec4899" ]%string.

(** A zone circle of the map, without its centre (which the component
    computes with [Math.cos] and [Math.sin]): its colour
    [zoneColors[i % zoneColors.length]], its radius [zoneRadius * 0.8]
    and the zone number of its popup. *)
Record ZoneCircle : Type := {
  circle_color : option string;
  circle_radius : Q;
  circle_zone : nat
}.

(** The loop [for (let i = 0; i < zones; i++)] of [MapComponent]: it runs
    for the indices below [zones], rounded up. *)
Definition map_zones (bufferSize zones : Q) : list ZoneCircle :=
  map (fun i =>
         {| circle_color := zoneColors !! (i mod length zoneColors)%nat;
            circle_radius := (bufferSize / zones * 0.8)%Q;
            circle_zone := (i + 1)%nat |})
      (seq 0 (Z.to_nat (Qceiling zones))).

(** ** Parsing a request and serialising an answer *)

(** The number that [JSON.parse] makes of a literal of value [q]: the
    nearest double, an infinity when that is out of range. *)
Definition parse_number (q : Q) : JSON :=
  if Qle_bool (pow2 1024) (Qabs (binary64 q))
  then JInfinity (negb (Qle_bool 0 q))
  else JNum (binary64 q).

(** The value that [request.json()] gives for a body whose text denotes
    [j], a [JNum] of [j] carrying the exact value of its literal. *)
Fixpoint request_json (j : JSON) : JSON :=
  match j with
  | JNum q => parse_number q
  | JArr l => JArr (map request_json l)
  | JObj m => JObj (request_json <$> m)
  | _ => j
  end.

(** What a client reads of a value of the answer once [NextResponse.json]
    has serialised it: an infinity has become [null]. *)
Fixpoint wire (j : JSON) : JSON :=
  match j with
  | JInfinity _ => JNull
  | JArr l => JArr (map wire l)
  | JObj m => JObj (wire <$> m)
  | _ => j
  end.

(** The margin left for rounding in the ranges of the NDVI figures, and
    the wider one for the rainfall figures. *)
Definition ndvi_slack : Q := 1 # 1000000000000000.
Definition rainfall_slack : Q := 1 # 10000000000000.

(** An environment whose draws are all [0] but the ninth, which is the
    largest double below [1] that ends in an even bit, [1 - 2^-52]. *)
Definition env_step_down : Env := {|
  Math_random := fun k => if (k =? 8)%nat then (1 - (1 # 4503599627370496))%Q else 0%Q;
  Date_now := fun _ => 20000%Z;
  fetch := fun _ _ => FetchRejected
|}.

(** ** Running the handler *)

Lemma build_mockResponse_init rt e body :
  build_mockResponse rt e body init =
    match body with
    | JNull => (None, {| draws := 4; reads := 0 |})
    | _ =>
        match toStr (Number_toString rt) (zones_of body) with
        | None => (None, {| draws := 5; reads := 0 |})
        | Some s => (Some (mockResponse_at e body s), {| draws := 26; reads := 17 |})
        end
    end.
Proof.
  unfold build_mockResponse, zones_of, init.
  destruct body;
    cbv [mbind M_bind mret M_ret random new_Date lift throw get prop draws reads
         Array_from from_indices];
    try reflexivity;
    match goal with
    | |- context [toStr ?f ?z] => destruct (toStr f z)
    end; reflexivity.
Qed.

(** Unfolding of the monad's operations. *)
Ltac run :=
  cbv beta iota zeta delta [mbind M_bind mret M_ret lift throw try_catch negb].

(** [generateAIInsights] catches whatever happens inside it: it always
    returns, and leaves the counters as they were. *)
Lemma generateAIInsights_returns rt e r key w :
  exists ai, generateAIInsights rt e r key w = (Some ai, w).
Proof.
  unfold generateAIInsights. run.
  destruct (build_prompt rt r) as [prompt|]; run; [|eauto].
  destruct (toStr (Number_toString rt) key) as [k|]; run; [|eauto].
  destruct (fetch e ("Bearer " +:+ k) prompt) as [|ok json]; run; [eauto|].
  destruct ok; run; [|eauto].
  destruct json as [data|]; run; [|eauto].
  destruct (get (Some data) "choices") as [choices|]; run; [|eauto].
  destruct (get0 choices) as [first|]; run; [|eauto].
  destruct (get first "message") as [message|]; run; [|eauto].
  destruct (get message "content") as [aiResponse|]; run; [|eauto].
  destruct (toStrV (Number_toString rt) aiResponse) as [text|]; run; [|eauto].
  destruct (JSON_parse rt text); run; eauto.
Qed.

(** A failed call makes it return [null]. *)
Lemma generateAIInsights_failed rt e r key w :
  (forall auth prompt, fetch_failed (fetch e auth prompt)) ->
  generateAIInsights rt e r key w = (Some JNull, w).
Proof.
  intros Hfail.
  unfold generateAIInsights. run.
  destruct (build_prompt rt r) as [prompt|]; run; [|reflexivity].
  destruct (toStr (Number_toString rt) key) as [k|]; run; [|reflexivity].
  specialize (Hfail ("Bearer " +:+ k) prompt).
  destruct (fetch e ("Bearer " +:+ k) prompt) as [|ok json]; run; [reflexivity|].
  destruct Hfail as [-> | ->]; run; [reflexivity|].
  destruct ok; reflexivity.
Qed.

Lemma handler_init rt e body :
  fst (handler rt e (Some body) init) =
    match build_mockResponse rt e body init with
    | (Some r, w) => Some (ai_step rt e body r w)
    | (None, _) => None
    end.
Proof.
  unfold handler, ai_step, ai_requested. run.
  destruct (build_mockResponse rt e body init) as [[r|] w] eqn:Hb; [|reflexivity].
  assert (Hnn : body <> JNull).
  { intros ->. rewrite build_mockResponse_init in Hb. discriminate. }
  assert (Hget : forall k, get (Some body) k = Some (prop body k)).
  { intros k. destruct body; try reflexivity. congruence. }
  rewrite !Hget.
  destruct (truthy (prop body "use_ai_insights")); [|destruct (prop body "groq_api_key"); reflexivity].
  destruct (prop body "groq_api_key") as [key|] eqn:Hk; [|reflexivity].
  cbn [andb].
  destruct (truthy (Some key)); [|reflexivity].
  destruct (generateAIInsights_returns rt e r key w) as [ai ->].
  destruct (truthy (Some ai)); reflexivity.
Qed.

(** The answer of the route for a body that was parsed. *)
Lemma POST_parsed rt e body :
  POST rt e (Some body) =
    match body with
    | JNull => Error500 "Analysis failed"
    | _ =>
        match toStr (Number_toString rt) (zones_of body) with
        | None => Error500 "Analysis failed"
        | Some s =>
            Json200 (ai_step rt e body (mockResponse_at e body s)
                       {| draws := 26; reads := 17 |})
        end
    end.
Proof.
  unfold POST. fold init.
  pose proof (handler_init rt e body) as H.
  destruct (handler rt e (Some body) init) as [o w]. cbn [fst] in H. subst o.
  rewrite build_mockResponse_init.
  destruct body; try reflexivity;
    match goal with
    | |- context [toStr ?f ?z] => destruct (toStr f z)
    end; reflexivity.
Qed.

Lemma POST_unparsed rt e : POST rt e None = Error500 "Analysis failed".
Proof. reflexivity. Qed.

(** The AI step only ever sets [ai_insights]. *)
Lemma ai_step_fields rt e body r w :
  let r' := ai_step rt e body r w in
  ndvi_stats r' = ndvi_stats r /\
  zones_identified r' = zones_identified r /\
  processing_time r' = processing_time r /\
  recommendations r' = recommendations r /\
  ndvi_time_series r' = ndvi_time_series r /\
  rainfall_data r' = rainfall_data r /\
  crop_type r' = crop_type r /\
  crop_growth_stage r' = crop_growth_stage r.
Proof.
  unfold ai_step.
  destruct (prop body "groq_api_key"); [|tauto].
  destruct (ai_requested body); [|tauto].
  destruct (generateAIInsights rt e r j w) as [[ai|] ?]; [|tauto].
  destruct (truthy (Some ai)); cbn; tauto.
Qed.

(** Every successful answer is the object of [mockResponse_at], up to
    [ai_insights]. *)
Lemma POST_Json200_inv rt e req r :
  POST rt e req = Json200 r ->
  exists body s,
    req = Some body /\ body <> JNull /\
    toStr (Number_toString rt) (zones_of body) = Some s /\
    r = ai_step rt e body (mockResponse_at e body s) {| draws := 26; reads := 17 |}.
Proof.
  destruct req as [body|]; [|rewrite POST_unparsed; discriminate].
  rewrite POST_parsed. intros H.
  destruct (toStr (Number_toString rt) (zones_of body)) as [s|] eqn:Hs.
  - exists body, s. destruct body; try discriminate;
      (split; [reflexivity|]; split; [discriminate|]; split; [assumption|]; congruence).
  - destruct body; discriminate.
Qed.

Lemma POST_env_low : POST sample_runtime env_low (Some empty_body) = Json200 answer_low.
Proof. vm_compute. reflexivity. Qed.

Lemma POST_env_high : POST sample_runtime env_high (Some empty_body) = Json200 answer_high.
Proof. vm_compute. reflexivity. Qed.

Lemma unit_draws_const r day o :
  (0 <= r)%Q -> (r < 1)%Q -> unit_draws (const_env r day o).
Proof. intros H0 H1 k. cbn. split; assumption. Qed.

(** The fields of a successful answer other than [ai_insights]. *)
Lemma POST_Json200_fields rt e req r :
  POST rt e req = Json200 r ->
  exists body s,
    req = Some body /\ body <> JNull /\
    toStr (Number_toString rt) (zones_of body) = Some s /\
    ndvi_stats r = ndvi_stats (mockResponse_at e body s) /\
    zones_identified r = zones_of body /\
    recommendations r = recommendations (mockResponse_at e body s) /\
    ndvi_time_series r = ndvi_time_series (mockResponse_at e body s) /\
    rainfall_data r = rainfall_data (mockResponse_at e body s) /\
    crop_type r = prop body "crop_type" /\
    crop_growth_stage r = prop body "crop_growth_stage".
Proof.
  intros H. apply POST_Json200_inv in H as (body & s & -> & Hnn & Hs & ->).
  exists body, s.
  pose proof (ai_step_fields rt e body (mockResponse_at e body s)
                {| draws := 26; reads := 17 |}) as F.
  cbv zeta in F. destruct F as (F1 & F2 & _ & F4 & F5 & F6 & F7 & F8).
  repeat split; assumption.
Qed.

(** ** Rounding *)

Lemma pow2_pos k : (0 < pow2 k)%Q.
Proof. apply Qpower_0_lt. reflexivity. Qed.

Lemma pow2_plus a b : (pow2 (a + b) == pow2 a * pow2 b)%Q.
Proof. apply Qpower_plus. discriminate. Qed.

Lemma round_half_even_near x :
  (Qabs (inject_Z (round_half_even x) - x) <= 1 # 2)%Q.
Proof.
  unfold round_half_even.
  pose proof (Qfloor_le x) as Hlo. pose proof (Qlt_floor x) as Hhi.
  rewrite inject_Z_plus in Hhi. change (inject_Z 1) with 1%Q in Hhi.
  apply Qabs_Qle_condition.
  destruct (Qcompare_spec (x - inject_Z (Qfloor x)) (1 # 2)) as [E | L | G].
  - destruct (Z.even (Qfloor x));
      rewrite ?inject_Z_plus; change (inject_Z 1) with 1%Q; split; lra.
  - split; lra.
  - rewrite inject_Z_plus. change (inject_Z 1) with 1%Q. split; lra.
Qed.

Lemma binade_below q : ~ (q == 0)%Q -> (pow2 (binade q) <= Qabs q)%Q.
Proof.
  intros Hq. unfold binade.
  set (n := Z.abs (Qnum q)). set (d := Zpos (Qden q)).
  set (g := (Z.log2 n - Z.log2 d)%Z).
  destruct (Qle_bool (pow2 g) (Qabs q)) eqn:E; [apply Qle_bool_iff, E|].
  assert (Hn : (0 < n)%Z).
  { unfold n. destruct q as [qn qd]. unfold Qeq in Hq. cbn in *. lia. }
  assert (Hd : (0 < d)%Z) by (unfold d; lia).
  destruct (Z.log2_spec n Hn) as [Hn1 _].
  destruct (Z.log2_spec d Hd) as [_ Hd2].
  assert (Ha : (Qabs q == inject_Z n / inject_Z d)%Q).
  { destruct q as [qn qd]. unfold n, d. cbn [Qabs Qnum Qden].
    rewrite (Qmake_Qdiv (Z.abs qn) qd). reflexivity. }
  rewrite Ha.
  assert (Hpn : (pow2 (Z.log2 n) <= inject_Z n)%Q).
  { unfold pow2. change 2%Q with (inject_Z 2). rewrite <- Zpower_Qpower by apply Z.log2_nonneg.
    rewrite <- Zle_Qle. exact Hn1. }
  assert (Hpd : (inject_Z d <= pow2 (Z.log2 d + 1))%Q).
  { unfold pow2. change 2%Q with (inject_Z 2).
    rewrite <- Zpower_Qpower by (pose proof (Z.log2_nonneg d); lia).
    rewrite <- Zle_Qle. rewrite <- Z.add_1_r in Hd2. lia. }
  assert (Hdq : (0 < inject_Z d)%Q).
  { change 0%Q with (inject_Z 0). rewrite <- Zlt_Qlt. exact Hd. }
  apply Qle_shift_div_l; [exact Hdq|].
  replace (g - 1)%Z with (Z.log2 n + - (Z.log2 d + 1))%Z by (unfold g; lia).
  rewrite pow2_plus.
  unfold pow2 at 2. rewrite Qpower_opp. fold (pow2 (Z.log2 d + 1)).
  pose proof (pow2_pos (Z.log2 n)) as P1. pose proof (pow2_pos (Z.log2 d + 1)) as P2.
  apply Qle_trans with (pow2 (Z.log2 n) * 1)%Q; [|lra].
  rewrite <- Qmult_assoc. apply Qmult_le_l; [exact P1|].
  assert (Hq1 : (inject_Z d / pow2 (Z.log2 d + 1) <= 1)%Q).
  { apply Qle_shift_div_r; [exact P2 | lra]. }
  unfold Qdiv in Hq1. rewrite Qmult_comm. exact Hq1.
Qed.

(** Some roundings: [0.1] and a third, the tie between [2^53] and
    [2^53 + 2], which goes to the even significand, a value below the
    smallest subnormal, and one beyond the largest double. *)
Example binary64_values :
  binary64 0.1 = (3602879701896397 # 36028797018963968) /\
  binary64 (1 # 3) = (6004799503160661 # 18014398509481984) /\
  binary64 (9007199254740993 # 1) = (9007199254740992 # 1) /\
  binary64 (9007199254740995 # 1) = (9007199254740996 # 1) /\
  binary64 (- (1 # 10 ^ 400)) = 0%Q /\
  binary64 (pow2 (-1074)) = Qred (pow2 (-1074)) /\
  Qle_bool (pow2 1024) (Qabs (binary64 (10 ^ 400 # 1))) = true.
Proof. repeat split; vm_compute; reflexivity. Qed.

(** The error of a rounding: at most half a unit in the last place of a
    normal number, and at most [2^-1075] below the normal range. *)
Lemma binary64_error q :
  (Qabs (binary64 q - q) <= (1 # 9007199254740992) * Qabs q + pow2 (-1075))%Q.
Proof.
  unfold binary64.
  pose proof (Qabs_nonneg q) as Hq0. pose proof (pow2_pos (-1075)) as Heta.
  destruct (Qeq_bool q 0) eqn:E.
  - apply Qeq_bool_iff in E. rewrite E.
    setoid_replace (0 - 0)%Q with 0%Q using relation Qeq by ring.
    change (Qabs 0) with 0%Q. lra.
  - assert (Hq : ~ (q == 0)%Q).
    { intros H. apply Qeq_bool_iff in H. congruence. }
    set (k := (Z.max (binade q) (-1022) - 52)%Z).
    rewrite Qred_correct.
    pose proof (pow2_pos k) as Pk.
    pose proof (round_half_even_near (q / pow2 k)) as Hr.
    set (m := inject_Z (round_half_even (q / pow2 k))) in *.
    assert (Hd : (m * pow2 k - q == (m - q / pow2 k) * pow2 k)%Q).
    { field. lra. }
    rewrite Hd, Qabs_Qmult, (Qabs_pos (pow2 k)) by lra.
    assert (Hstep : (Qabs (m - q / pow2 k) * pow2 k <= (1 # 2) * pow2 k)%Q).
    { apply Qmult_le_compat_r; [exact Hr | lra]. }
    apply Qle_trans with ((1 # 2) * pow2 k)%Q; [exact Hstep|].
    pose proof (binade_below q Hq) as Hb.
    destruct (Z.max_spec (binade q) (-1022)) as [[Hlt Hmax] | [Hge Hmax]].
    + assert (Hk : k = (-1075 + 1)%Z) by (unfold k; lia).
      rewrite Hk, pow2_plus. change (pow2 1) with 2%Q.
      assert (0 <= (1 # 9007199254740992) * Qabs q)%Q by (apply Qmult_le_0_compat; [discriminate | lra]).
      lra.
    + assert (Hk : k = (binade q + -52)%Z) by (unfold k; lia).
      rewrite Hk, pow2_plus.
      assert (Hc : (pow2 (-52) == 2 * (1 # 9007199254740992))%Q) by reflexivity.
      rewrite Hc.
      assert ((1 # 9007199254740992) * pow2 (binade q) <= (1 # 9007199254740992) * Qabs q)%Q.
      { apply Qmult_le_l; [reflexivity | exact Hb]. }
      lra.
Qed.

(** For a value of magnitude at most [B], the rounding moves it by at most
    [2^-52 B]. *)
Lemma binary64_within (B x : Q) :
  (1 # 1024 <= B)%Q ->
  (- B <= x /\ x <= B)%Q ->
  (x - (1 # 4503599627370496) * B <= binary64 x /\ binary64 x <= x + (1 # 4503599627370496) * B)%Q.
Proof.
  intros HB Hx.
  pose proof (binary64_error x) as He.
  assert (Ha : (Qabs x <= B)%Q) by (apply Qabs_Qle_condition; exact Hx).
  assert (Heta : (pow2 (-1075) <= (1 # 9007199254740992) * (1 # 1024))%Q) by (vm_compute; discriminate).
  assert (Hm : ((1 # 9007199254740992) * Qabs x <= (1 # 9007199254740992) * B)%Q).
  { apply Qmult_le_l; [reflexivity | exact Ha]. }
  assert (Hb : (Qabs (binary64 x - x) <= (1 # 4503599627370496) * B)%Q).
  { apply Qle_trans with ((1 # 9007199254740992) * Qabs x + pow2 (-1075))%Q; [exact He|].
    assert ((1 # 9007199254740992) * (1 # 1024) <= (1 # 9007199254740992) * B)%Q
      by (apply Qmult_le_l; [reflexivity | exact HB]).
    lra. }
  apply Qabs_Qle_condition in Hb. lra.
Qed.

(** A rounding does not change the sign. *)
Lemma binary64_nonneg q : (0 <= q)%Q -> (0 <= binary64 q)%Q.
Proof.
  intros Hq. unfold binary64.
  destruct (Qeq_bool q 0); [lra|].
  rewrite Qred_correct.
  set (k := (Z.max (binade q) (-1022) - 52)%Z).
  pose proof (pow2_pos k) as Pk.
  apply Qmult_le_0_compat; [|lra].
  assert (Hx : (0 <= q / pow2 k)%Q) by (apply Qle_shift_div_l; [exact Pk | lra]).
  assert (Hf : (0 <= Qfloor (q / pow2 k))%Z).
  { rewrite <- (Qfloor_Z 0). apply Qfloor_resp_le. exact Hx. }
  change 0%Q with (inject_Z 0). rewrite <- Zle_Qle.
  unfold round_half_even.
  destruct (q / pow2 k - inject_Z (Qfloor (q / pow2 k)) ?= 1 # 2)%Q;
    [destruct (Z.even (Qfloor (q / pow2 k)))| |]; lia.
Qed.

(** The literals of the handler, as doubles. *)
Ltac eval_literals :=
  repeat match goal with
         | |- context [lit ?c] =>
             let v := eval vm_compute in (lit c) in
             replace (lit c) with v by (vm_compute; reflexivity)
         end.

(** Replaces an innermost rounding [binary64 x] of the goal by a variable
    within [2^-52 B] of [x], for the first [B] of the list that bounds
    [x]. *)
Ltac bound_rounding :=
  match goal with
  | |- context [binary64 ?x] =>
      lazymatch x with
      | context [binary64 _] => fail
      | _ =>
          let H := fresh "Hround" in
          first
            [ assert (H := binary64_within (1 # 16) x ltac:(vm_compute; discriminate)
                             ltac:(split; lra))
            | assert (H := binary64_within (1 # 2) x ltac:(vm_compute; discriminate)
                             ltac:(split; lra))
            | assert (H := binary64_within 1 x ltac:(vm_compute; discriminate)
                             ltac:(split; lra))
            | assert (H := binary64_within 4 x ltac:(vm_compute; discriminate)
                             ltac:(split; lra))
            | assert (H := binary64_within 32 x ltac:(vm_compute; discriminate)
                             ltac:(split; lra))
            | assert (H := binary64_within 64 x ltac:(vm_compute; discriminate)
                             ltac:(split; lra)) ];
          generalize dependent (binary64 x); intros ? H
      end
  end.

(** The roundings of the goal that no draw reaches, as doubles. *)
Ltac eval_closed :=
  repeat match goal with
         | |- context [binary64 ?x] =>
             lazymatch x with
             | context [Math_random _ _] => fail
             | context [binary64 _] => fail
             | _ =>
                 let v := eval vm_compute in (binary64 x) in
                 replace (binary64 x) with v by (vm_compute; reflexivity)
             end
         end.

Ltac bound_roundings :=
  eval_literals; unfold fadd, fsub, fmul; eval_closed; repeat bound_rounding.

(** ** C8: ranges of the NDVI statistics *)

(** C8, as amended: for every draw in [[0, 1)] the statistics of a
    successful answer satisfy [min < mean < max] and [stddev > 0]; up to a
    rounding margin of [10^-15], [min] lies in [[0.20, 0.30]], [mean] in
    [[0.55, 0.75]], [max] in [[0.80, 0.90]] and [stddev] in
    [[0.095, 0.145]]. The ends of these ranges are not kept exactly: a
    draw of [0] gives a [max] just below [0.80]. *)
Theorem ndvi_stats_ranges rt e req r :
  unit_draws e ->
  POST rt e req = Json200 r ->
  (0.20 - ndvi_slack <= min (ndvi_stats r) /\ min (ndvi_stats r) <= 0.30 + ndvi_slack /\
   0.55 - ndvi_slack <= mean (ndvi_stats r) /\ mean (ndvi_stats r) <= 0.75 + ndvi_slack /\
   0.80 - ndvi_slack <= max (ndvi_stats r) /\ max (ndvi_stats r) <= 0.90 + ndvi_slack /\
   0.095 - ndvi_slack <= stddev (ndvi_stats r) /\
   stddev (ndvi_stats r) <= 0.145 + ndvi_slack /\
   min (ndvi_stats r) < mean (ndvi_stats r) /\
   mean (ndvi_stats r) < max (ndvi_stats r) /\
   0 < stddev (ndvi_stats r))%Q.
Proof.
  intros Hu H.
  apply POST_Json200_fields in H as (body & s & _ & _ & _ & -> & _).
  cbn [ndvi_stats mockResponse_at min mean max stddev].
  pose proof (Hu 0%nat) as [? ?]. pose proof (Hu 1%nat) as [? ?].
  pose proof (Hu 2%nat) as [? ?]. pose proof (Hu 3%nat) as [? ?].
  unfold ndvi_slack. bound_roundings.
  repeat split; lra.
Qed.

Lemma ndvi_stats_ranges_witness :
  unit_draws env_high /\
  POST sample_runtime env_high (Some empty_body) = Json200 answer_high /\
  (min (ndvi_stats answer_high) < mean (ndvi_stats answer_high) /\
   mean (ndvi_stats answer_high) < max (ndvi_stats answer_high) /\
   0 < stddev (ndvi_stats answer_high))%Q.
Proof.
  split; [apply unit_draws_const; vm_compute; congruence|].
  split; [exact POST_env_high|].
  destruct (ndvi_stats_ranges sample_runtime env_high (Some empty_body) answer_high)
    as (_ & _ & _ & _ & _ & _ & _ & _ & H1 & H2 & H3).
  - apply unit_draws_const; vm_compute; congruence.
  - exact POST_env_high.
  - split; [exact H1|]. split; [exact H2 | exact H3].
Defined.

(** C8 as stated fails: when the draw taken for [max] is [0], a value of
    [[0, 1)], the maximum of the answer is the double just below [0.8]
    (0.7999999999999999), outside [[0.80, 0.90)]; and when the draw taken
    for [mean] is the largest double below [1], the mean is [0.75],
    outside [[0.55, 0.75)]. *)
Lemma max_falls_below_its_range :
  unit_draws env_low /\
  POST sample_runtime env_low (Some empty_body) = Json200 answer_low /\
  (max (ndvi_stats answer_low) == 7205759403792793 # 9007199254740992)%Q /\
  (max (ndvi_stats answer_low) < 0.80)%Q /\
  (fadd (lit 0.65) (fmul (fsub (1 - (1 # 9007199254740992)) (lit 0.5)) (lit 0.2)) == 0.75)%Q.
Proof.
  split; [apply unit_draws_const; vm_compute; congruence|].
  split; [exact POST_env_low|].
  repeat split; vm_compute; congruence.
Qed.

(** ** C4: the rainfall figures *)

(** C4, as amended: the rainfall object of a successful answer holds ten
    samples, each [20] times a draw of its own, and its three statistics
    are each computed from one further draw and not from the samples:
    [total_rainfall = 43.2 + 20 d23], [avg_daily_rainfall = 6.17 + 3 d24]
    and [max_daily_rainfall = 15.3 + 10 d25], in double arithmetic. For
    draws in [[0, 1)] the samples are not negative and, up to a rounding
    margin of [10^-13], at most [20], the total lies in [[43.2, 63.2]],
    the average in [[6.17, 9.17]] and the maximum in [[15.3, 25.3]]. *)
Theorem rainfall_data_drawn rt e req r :
  unit_draws e ->
  POST rt e req = Json200 r ->
  rainfall_values (rainfall_data r) =
    map (fun i => fmul (Math_random e (13 + i)) (lit 20)) (seq 0 10) /\
  Forall (fun v => 0 <= v /\ v <= 20 + rainfall_slack)%Q (rainfall_values (rainfall_data r)) /\
  total_rainfall (rainfall_data r) = fadd (lit 43.2) (fmul (Math_random e 23) (lit 20)) /\
  avg_daily_rainfall (rainfall_data r) = fadd (lit 6.17) (fmul (Math_random e 24) (lit 3)) /\
  max_daily_rainfall (rainfall_data r) = fadd (lit 15.3) (fmul (Math_random e 25) (lit 10)) /\
  (43.2 - rainfall_slack <= total_rainfall (rainfall_data r) /\
   total_rainfall (rainfall_data r) <= 63.2 + rainfall_slack /\
   6.17 - rainfall_slack <= avg_daily_rainfall (rainfall_data r) /\
   avg_daily_rainfall (rainfall_data r) <= 9.17 + rainfall_slack /\
   15.3 - rainfall_slack <= max_daily_rainfall (rainfall_data r) /\
   max_daily_rainfall (rainfall_data r) <= 25.3 + rainfall_slack)%Q.
Proof.
  intros Hu H.
  apply POST_Json200_fields in H as (body & s & _ & _ & _ & _ & _ & _ & _ & -> & _).
  cbn [rainfall_data mockResponse_at rainfall_values total_rainfall
       avg_daily_rainfall max_daily_rainfall].
  split; [reflexivity|].
  split.
  { apply Forall_map, Forall_forall. intros i _. cbn beta.
    pose proof (Hu (13 + i)%nat) as [? ?].
    split.
    - apply binary64_nonneg. eval_literals. lra.
    - unfold rainfall_slack. bound_roundings. lra. }
  do 3 (split; [reflexivity|]).
  pose proof (Hu 23%nat) as [? ?]. pose proof (Hu 24%nat) as [? ?].
  pose proof (Hu 25%nat) as [? ?].
  unfold rainfall_slack. bound_roundings.
  repeat split; lra.
Qed.

Lemma rainfall_data_drawn_witness :
  unit_draws env_high /\
  POST sample_runtime env_high (Some empty_body) = Json200 answer_high /\
  rainfall_values (rainfall_data answer_high) =
    map (fun i => fmul (Math_random env_high (13 + i)) (lit 20)) (seq 0 10) /\
  (43.2 - rainfall_slack <= total_rainfall (rainfall_data answer_high))%Q.
Proof.
  split; [apply unit_draws_const; vm_compute; congruence|].
  split; [exact POST_env_high|].
  destruct (rainfall_data_drawn sample_runtime env_high (Some empty_body) answer_high)
    as (Hv & _ & _ & _ & _ & Ht & _).
  - apply unit_draws_const; vm_compute; congruence.
  - exact POST_env_high.
  - split; [exact Hv | exact Ht].
Defined.

(** C4 as stated fails: with every draw [0] the ten samples are all [0],
    so their sum and maximum are [0] and the sum divided by the number of
    samples is [0], while the answer reports a total of [43.2], an average
    of [6.17] and a maximum of [15.3] (the doubles nearest to them). *)
Lemma rainfall_statistics_not_aggregates :
  POST sample_runtime env_low (Some empty_body) = Json200 answer_low /\
  let rain := rainfall_data answer_low in
  (Qsum (rainfall_values rain) == 0)%Q /\
  total_rainfall rain = lit 43.2 /\
  ~ (total_rainfall rain == Qsum (rainfall_values rain))%Q /\
  ~ (avg_daily_rainfall rain ==
       total_rainfall rain / inject_Z (Z.of_nat (length (rainfall_values rain))))%Q /\
  ~ (max_daily_rainfall rain == Qmaximum (rainfall_values rain))%Q.
Proof.
  split; [exact POST_env_low|].
  cbv zeta. repeat split; vm_compute; congruence.
Qed.

(** ** C2: the trend and the NDVI series *)

Lemma Qgtb_true a b : Qgtb a b = true <-> (b < a)%Q.
Proof.
  unfold Qgtb. rewrite negb_true_iff.
  destruct (Qle_bool a b) eqn:E.
  - apply Qle_bool_iff in E. split; [discriminate | intros H; lra].
  - split; [intros _ | reflexivity].
    apply Qnot_le_lt. intros H. apply Qle_bool_iff in H. congruence.
Qed.

(** C2, as amended: the reported trend of a successful answer is not
    derived from the NDVI series: it is [increasing] exactly when the draw
    taken for the trend (the thirteenth of the invocation) is above [0.5],
    and [decreasing] otherwise, so that a strictly increasing series can
    be reported as [decreasing]. *)
Theorem trend_follows_its_draw rt e req r :
  POST rt e req = Json200 r ->
  ((0.5 < Math_random e 12)%Q -> trend (ndvi_time_series r) = "increasing") /\
  ((Math_random e 12 <= 0.5)%Q -> trend (ndvi_time_series r) = "decreasing").
Proof.
  intros H.
  apply POST_Json200_fields in H as (body & s & _ & _ & _ & _ & _ & _ & -> & _).
  cbn [ndvi_time_series mockResponse_at trend].
  assert (Hhalf : (lit 0.5 == 0.5)%Q) by reflexivity.
  destruct (Qgtb (Math_random e 12) (lit 0.5)) eqn:E.
  - apply Qgtb_true in E. split; [reflexivity | intros; lra].
  - split; [|reflexivity].
    intros Hlt. assert (Hgt : Qgtb (Math_random e 12) (lit 0.5) = true)
      by (apply Qgtb_true; lra).
    congruence.
Qed.

Lemma trend_follows_its_draw_witness :
  POST sample_runtime env_high (Some empty_body) = Json200 answer_high /\
  (0.5 < Math_random env_high 12)%Q /\
  trend (ndvi_time_series answer_high) = "increasing".
Proof.
  split; [exact POST_env_high|].
  split; [vm_compute; reflexivity|].
  destruct (trend_follows_its_draw sample_runtime env_high (Some empty_body) answer_high
              POST_env_high) as (Hi & _).
  apply Hi. vm_compute. reflexivity.
Defined.

(** C2 as stated fails: with every draw [0] the series of the answer is
    strictly increasing (0.25, 0.35000000000000003, 0.45, ...,
    0.8500000000000001) and the reported trend is [decreasing]. *)
Lemma increasing_series_decreasing_trend :
  unit_draws env_low /\
  POST sample_runtime env_low (Some empty_body) = Json200 answer_low /\
  ascending Qlt (ndvi_values (ndvi_time_series answer_low)) /\
  trend (ndvi_time_series answer_low) = "decreasing" /\
  trend (ndvi_time_series answer_low) <> "increasing".
Proof.
  split; [apply unit_draws_const; vm_compute; congruence|].
  split; [exact POST_env_low|].
  split; [vm_compute; repeat split; reflexivity|].
  split; [reflexivity | discriminate].
Qed.

(** Rounding can make the series step down: when the draw of the fourth
    value is [1 - 2^-52] and that of the fifth is [0], the fourth value is
    [0.65] and the fifth the double just below it. *)
Example series_can_step_down :
  exists v3 v4,
    ndvi_values (ndvi_time_series (mockResponse_at env_step_down empty_body "3")) !! 3%nat
      = Some v3 /\
    ndvi_values (ndvi_time_series (mockResponse_at env_step_down empty_body "3")) !! 4%nat
      = Some v4 /\
    v3 = lit 0.65 /\ (v4 == 5854679515581644 # 9007199254740992)%Q /\ (v4 < v3)%Q.
Proof.
  eexists _, _. split; [reflexivity|]. split; [reflexivity|].
  repeat split; vm_compute; reflexivity.
Qed.

(** ** C7: the dates of the NDVI series *)

(** C7: the dates of the NDVI time series of a successful answer are in
    ascending calendar order, each strictly earlier than the next (the
    clock being read once per date, it is assumed not to jump back by
    fifteen days or more between two readings). *)
Theorem dates_ascending rt e req r :
  clock_steady e ->
  POST rt e req = Json200 r ->
  length (dates (ndvi_time_series r)) = 7%nat /\
  ascending Z.lt (dates (ndvi_time_series r)).
Proof.
  intros Hc H.
  apply POST_Json200_fields in H as (body & s & _ & _ & _ & _ & _ & _ & -> & _).
  split; [reflexivity|].
  pose proof (Hc 0%nat). pose proof (Hc 1%nat). pose proof (Hc 2%nat).
  pose proof (Hc 3%nat). pose proof (Hc 4%nat). pose proof (Hc 5%nat).
  cbn [ndvi_time_series mockResponse_at dates map seq ascending].
  repeat split; lia.
Qed.

Lemma dates_ascending_witness :
  clock_steady env_high /\
  POST sample_runtime env_high (Some empty_body) = Json200 answer_high /\
  length (dates (ndvi_time_series answer_high)) = 7%nat /\
  ascending Z.lt (dates (ndvi_time_series answer_high)).
Proof.
  assert (Hc : clock_steady env_high) by (intros k; cbn; lia).
  split; [exact Hc|].
  split; [exact POST_env_high|].
  exact (dates_ascending sample_runtime env_high (Some empty_body) answer_high
           Hc POST_env_high).
Defined.

(** ** C3: the recommendations and the trend *)

(** C3, as amended: the recommendation list of a successful answer is the
    same five items whatever the trend: the third one cites the zone
    count, none is added or removed for a trend direction, and the
    direction is [increasing] or [decreasing], never stable. *)
Theorem recommendations_fixed rt e req r :
  POST rt e req = Json200 r ->
  exists zones_text,
    toStr (Number_toString rt) (zones_identified r) = Some zones_text /\
    recommendations r = [
      "Field shows good overall vegetation health based on NDVI analysis.";
      "Focus on maintaining current management practices in high-vigor zones.";
      "Consider variable rate application based on the " +:+ zones_text +:+
        " identified management zones.";
      "Take soil samples from each zone to determine specific nutrient requirements.";
      "Monitor low-vigor areas for potential stress factors or soil compaction." ]%string /\
    (trend (ndvi_time_series r) = "increasing" \/
     trend (ndvi_time_series r) = "decreasing").
Proof.
  intros H.
  apply POST_Json200_fields in H as (body & s & _ & _ & Hs & _ & -> & -> & -> & _).
  exists s. split; [exact Hs|]. split; [reflexivity|].
  cbn [ndvi_time_series mockResponse_at trend].
  destruct (Qgtb (Math_random e 12) (lit 0.5)); [left | right]; reflexivity.
Qed.

Lemma recommendations_fixed_witness :
  POST sample_runtime env_high (Some empty_body) = Json200 answer_high /\
  exists zones_text,
    toStr (Number_toString sample_runtime) (zones_identified answer_high) = Some zones_text /\
    recommendations answer_high = [
      "Field shows good overall vegetation health based on NDVI analysis.";
      "Focus on maintaining current management practices in high-vigor zones.";
      "Consider variable rate application based on the " +:+ zones_text +:+
        " identified management zones.";
      "Take soil samples from each zone to determine specific nutrient requirements.";
      "Monitor low-vigor areas for potential stress factors or soil compaction." ]%string /\
    (trend (ndvi_time_series answer_high) = "increasing" \/
     trend (ndvi_time_series answer_high) = "decreasing").
Proof.
  split; [exact POST_env_high|].
  exact (recommendations_fixed sample_runtime env_high (Some empty_body) answer_high
           POST_env_high).
Defined.

(** C3 as stated fails, whichever items are taken to be trend warnings and
    trend confirmations: the same request gets the same list with a
    [decreasing] trend (draws [0]) and with an [increasing] one (draws
    [0.9]), so no reading of the items makes a warning present exactly
    for the former. *)
Lemma recommendations_ignore_trend :
  ~ exists is_warning is_confirmation : string -> bool,
      forall e r,
        POST sample_runtime e (Some empty_body) = Json200 r ->
        (existsb is_warning (recommendations r) = true <->
           trend (ndvi_time_series r) = "decreasing") /\
        (existsb is_confirmation (recommendations r) = true <->
           trend (ndvi_time_series r) = "increasing").
Proof.
  intros (is_warning & is_confirmation & H).
  destruct (H env_low answer_low POST_env_low) as [Hlow _].
  destruct (H env_high answer_high POST_env_high) as [Hhigh _].
  change (recommendations answer_high) with (recommendations answer_low) in Hhigh.
  assert (Hw : existsb is_warning (recommendations answer_low) = true)
    by (apply Hlow; reflexivity).
  apply Hhigh in Hw. discriminate Hw.
Qed.

(** ** C5 and C10: the zone count and the echoed fields *)

(** Any successful answer to [body] has the zone count and the crop
    properties of [body]. *)
Lemma POST_parsed_ok rt e body s :
  body <> JNull ->
  toStr (Number_toString rt) (zones_of body) = Some s ->
  exists r,
    POST rt e (Some body) = Json200 r /\
    zones_identified r = zones_of body /\
    crop_type r = prop body "crop_type" /\
    crop_growth_stage r = prop body "crop_growth_stage".
Proof.
  intros Hnn Hs.
  assert (HP : POST rt e (Some body) =
               Json200 (ai_step rt e body (mockResponse_at e body s)
                          {| draws := 26; reads := 17 |})).
  { rewrite POST_parsed, Hs. destruct body; congruence. }
  eexists. split; [exact HP|].
  apply POST_Json200_fields in HP
    as (body' & s' & Hb & _ & _ & _ & Hz & _ & _ & _ & Hc & Hg).
  injection Hb as <-. auto.
Qed.

(** A property of the parsed body is the parsed property of the text. *)
Lemma prop_request_json (text : JSON) (k : string) :
  prop (request_json text) k = request_json <$> prop text k.
Proof.
  destruct text; try reflexivity.
  - cbn [request_json]. unfold parse_number.
    destruct (Qle_bool (pow2 1024) (Qabs (binary64 q))); reflexivity.
  - cbn [request_json prop]. apply lookup_fmap.
Qed.

Lemma request_json_not_null (text : JSON) : text <> JNull -> request_json text <> JNull.
Proof.
  destruct text; try congruence; intros _; cbn [request_json]; try discriminate.
  unfold parse_number. destruct (Qle_bool (pow2 1024) (Qabs (binary64 q))); discriminate.
Qed.

(** The zone count that the handler makes of a number literal [q]. *)
Lemma zones_of_number (m : gmap string JSON) (q : Q) :
  m !! "num_zones"%string = Some (JNum q) ->
  zones_of (request_json (JObj m)) =
    if Qeq_bool (binary64 q) 0 then JNum 3 else parse_number q.
Proof.
  intros Hm. unfold zones_of. rewrite prop_request_json. cbn [prop]. rewrite Hm.
  cbn [fmap option_fmap option_map request_json]. unfold parse_number, or_default.
  destruct (Qle_bool (pow2 1024) (Qabs (binary64 q))) eqn:Hover; cbn [truthy].
  - destruct (Qeq_bool (binary64 q) 0) eqn:Hz; [|reflexivity].
    exfalso. apply Qeq_bool_iff in Hz. apply Qle_bool_iff in Hover.
    rewrite Hz in Hover. revert Hover. vm_compute. congruence.
  - destruct (Qeq_bool (binary64 q) 0); reflexivity.
Qed.

Lemma wire_zones_of_number (q : Q) :
  wire (if Qeq_bool (binary64 q) 0 then JNum 3 else parse_number q) =
    if Qeq_bool (binary64 q) 0 then JNum 3
    else if Qle_bool (pow2 1024) (Qabs (binary64 q)) then JNull
    else JNum (binary64 q).
Proof.
  unfold parse_number.
  destruct (Qeq_bool (binary64 q) 0); [reflexivity|].
  destruct (Qle_bool (pow2 1024) (Qabs (binary64 q))); reflexivity.
Qed.

(** C5, as amended: a request whose [num_zones] is a number [k <= 0] is
    not rejected. The handler answers successfully: with three zones when
    [k] is [0] or so small that it parses to zero, with the double nearest
    to [k] as zone count when that is a finite double other than zero, and
    with minus infinity, which is sent as [null], when [k] lies below the
    range of the doubles. *)
Theorem nonpositive_zones_accepted rt e (m : gmap string JSON) (k : Q) :
  m !! "num_zones"%string = Some (JNum k) ->
  (k <= 0)%Q ->
  exists r,
    POST rt e (Some (request_json (JObj m))) = Json200 r /\
    zones_identified r =
      (if Qeq_bool (binary64 k) 0 then JNum 3
       else if Qle_bool (pow2 1024) (Qabs (binary64 k)) then JInfinity true
       else JNum (binary64 k)) /\
    wire (zones_identified r) =
      (if Qeq_bool (binary64 k) 0 then JNum 3
       else if Qle_bool (pow2 1024) (Qabs (binary64 k)) then JNull
       else JNum (binary64 k)).
Proof.
  intros Hm Hk.
  pose proof (zones_of_number m k Hm) as Hz.
  assert (Hsign : Qeq_bool (binary64 k) 0 = false -> negb (Qle_bool 0 k) = true).
  { intros Hnz. destruct (Qle_bool 0 k) eqn:Hpos; [|reflexivity].
    exfalso. apply Qle_bool_iff in Hpos.
    assert (Hk0 : (k == 0)%Q) by lra.
    assert (Hb : Qeq_bool (binary64 k) 0 = true).
    { apply Qeq_bool_iff. unfold binary64.
      replace (Qeq_bool k 0) with true by (symmetry; apply Qeq_bool_iff, Hk0).
      reflexivity. }
    congruence. }
  assert (Hprint : is_Some (toStr (Number_toString rt) (zones_of (request_json (JObj m))))).
  { rewrite Hz. unfold parse_number.
    destruct (Qeq_bool (binary64 k) 0); [eexists; reflexivity|].
    destruct (Qle_bool (pow2 1024) (Qabs (binary64 k))); [|eexists; reflexivity].
    destruct (negb (Qle_bool 0 k)); eexists; reflexivity. }
  destruct Hprint as [s Hs].
  destruct (POST_parsed_ok rt e (request_json (JObj m)) s) as (r & HP & Hr & _);
    [discriminate | exact Hs |].
  exists r. split; [exact HP|].
  assert (Hval : zones_identified r =
                 if Qeq_bool (binary64 k) 0 then JNum 3
                 else if Qle_bool (pow2 1024) (Qabs (binary64 k)) then JInfinity true
                 else JNum (binary64 k)).
  { rewrite Hr, Hz. unfold parse_number.
    destruct (Qeq_bool (binary64 k) 0) eqn:Hnz; [reflexivity|].
    rewrite (Hsign eq_refl). reflexivity. }
  split; [exact Hval|]. rewrite Hval.
  destruct (Qeq_bool (binary64 k) 0); [reflexivity|].
  destruct (Qle_bool (pow2 1024) (Qabs (binary64 k))); reflexivity.
Qed.

Lemma nonpositive_zones_accepted_witness :
  (-1 <= 0)%Q /\
  exists r,
    POST sample_runtime env_low (Some (request_json body_negative_zones)) = Json200 r /\
    zones_identified r = JNum (-1) /\
    wire (zones_identified r) = JNum (-1).
Proof.
  split; [vm_compute; congruence|].
  apply (nonpositive_zones_accepted sample_runtime env_low
           {[ "num_zones"%string := JNum (-1) ]} (-1)%Q).
  - reflexivity.
  - vm_compute; congruence.
Defined.

(** C5 as stated fails: the requests with [num_zones] [0] and [-1] both
    get a successful answer, with [3] and [-1] zones. *)
Lemma nonpositive_zones_not_rejected :
  (exists r, POST sample_runtime env_low (Some body_zero_zones) = Json200 r /\
             zones_identified r = JNum 3) /\
  (exists r, POST sample_runtime env_low (Some body_negative_zones) = Json200 r /\
             zones_identified r = JNum (-1)).
Proof.
  split.
  - exists (mockResponse_at env_low body_zero_zones "3").
    split; [vm_compute|]; reflexivity.
  - exists (mockResponse_at env_low body_negative_zones "-1").
    split; [vm_compute|]; reflexivity.
Qed.

(** What a client reads of a number literal that went through the handler
    unchanged: its nearest double, or [null] when out of range. *)
Lemma wire_request_json_number (q : Q) :
  wire (request_json (JNum q)) =
    if Qle_bool (pow2 1024) (Qabs (binary64 q)) then JNull else JNum (binary64 q).
Proof.
  cbn [request_json]. unfold parse_number.
  destruct (Qle_bool (pow2 1024) (Qabs (binary64 q))); reflexivity.
Qed.

(** A zone count too small for a double is answered with three zones, one
    too large with an infinity that is sent as [null], and an integer
    beyond [2^53] with its nearest double. *)
Example zone_counts_out_of_range :
  zones_of (request_json (JObj {[ "num_zones"%string := JNum (-(1 # 10 ^ 400)) ]})) = JNum 3 /\
  zones_of (request_json (JObj {[ "num_zones"%string := JNum (-(10 ^ 400 # 1)) ]})) =
    JInfinity true /\
  wire (JInfinity true) = JNull /\
  zones_of (request_json (JObj {[ "num_zones"%string := JNum (9007199254740993 # 1) ]})) =
    JNum (9007199254740992 # 1).
Proof. repeat split; vm_compute; reflexivity. Qed.

(** C10, as amended: for every request whose body is a JSON value other
    than [null] and whose zone count ([num_zones], or [3] when that is
    falsy) can be converted to a string, the answer is successful and
    echoes the request as [request.json()] parsed it, each number literal
    having become its nearest double, or an infinity when out of range:
    [crop_type] and [crop_growth_stage] are the parsed values of the
    request, and [zones_identified] is the parsed [num_zones] when that is
    truthy and [3] otherwise ([0], a literal that parses to zero and an
    absent [num_zones] included). What the client reads of the two crop
    fields is their parsed value as serialised, an infinity having become
    [null]; for a number literal as [num_zones], the client reads back its
    nearest double, [3] when that is zero, and [null] when the literal is
    out of range. *)
Theorem request_echoed rt e (text : JSON) :
  text <> JNull ->
  is_Some (toStr (Number_toString rt) (zones_of (request_json text))) ->
  exists r,
    POST rt e (Some (request_json text)) = Json200 r /\
    crop_type r = request_json <$> prop text "crop_type" /\
    crop_growth_stage r = request_json <$> prop text "crop_growth_stage" /\
    zones_identified r =
      match request_json <$> prop text "num_zones" with
      | Some num_zones => if truthy (Some num_zones) then num_zones else JNum 3
      | None => JNum 3
      end /\
    wire <$> crop_type r = (fun v => wire (request_json v)) <$> prop text "crop_type" /\
    wire <$> crop_growth_stage r =
      (fun v => wire (request_json v)) <$> prop text "crop_growth_stage" /\
    (forall q, prop text "num_zones" = Some (JNum q) ->
       wire (zones_identified r) =
         if Qeq_bool (binary64 q) 0 then JNum 3
         else if Qle_bool (pow2 1024) (Qabs (binary64 q)) then JNull
         else JNum (binary64 q)).
Proof.
  intros Hnn [s Hs].
  destruct (POST_parsed_ok rt e (request_json text) s
              (request_json_not_null text Hnn) Hs) as (r & HP & Hz & Hc & Hg).
  exists r. split; [exact HP|].
  rewrite prop_request_json in Hc, Hg.
  split; [exact Hc|]. split; [exact Hg|].
  split.
  { rewrite Hz. unfold zones_of, or_default. rewrite prop_request_json.
    destruct (request_json <$> prop text "num_zones"); reflexivity. }
  split; [rewrite Hc; destruct (prop text "crop_type"); reflexivity|].
  split; [rewrite Hg; destruct (prop text "crop_growth_stage"); reflexivity|].
  - intros q Hq. rewrite Hz.
    destruct text; try discriminate. cbn [prop] in Hq.
    rewrite (zones_of_number m q Hq). apply wire_zones_of_number.
Qed.

Lemma request_echoed_witness :
  body_wheat <> JNull /\
  exists r,
    POST sample_runtime env_low (Some (request_json body_wheat)) = Json200 r /\
    crop_type r = Some (JStr "Wheat") /\
    crop_growth_stage r = Some (JStr "Vegetative") /\
    zones_identified r = JNum 5.
Proof.
  split; [discriminate|].
  destruct (request_echoed sample_runtime env_low body_wheat)
    as (r & HP & Hc & Hg & Hz & _).
  - discriminate.
  - exists "5". reflexivity.
  - exists r. split; [exact HP|]. split; [exact Hc|]. split; [exact Hg | exact Hz].
Defined.

(** C10 as stated fails: the bodies [null] and
    [{"num_zones": {"toString": 1}}] are parseable JSON, and both get the
    error answer, which echoes nothing. *)
Lemma parseable_body_not_echoed :
  POST sample_runtime env_low (Some (request_json JNull)) = Error500 "Analysis failed" /\
  POST sample_runtime env_low (Some (request_json body_unprintable_zones)) =
    Error500 "Analysis failed".
Proof. split; vm_compute; reflexivity. Qed.

(** ** C9: a failed call of the text-generation service *)

(** C9: when AI insights are requested and the call of the
    text-generation service fails (network error, a status that is not
    ok, or a response whose body cannot be read), the answer is the one
    the same request gets without asking for AI insights: the failure
    becomes no error answer of its own, a successful answer has no
    [ai_insights] field, and every other field is untouched. *)
Theorem failed_insights_are_dropped rt e (m : gmap string JSON) :
  truthy (m !! "use_ai_insights"%string) = true ->
  truthy (m !! "groq_api_key"%string) = true ->
  (forall auth prompt, fetch_failed (fetch e auth prompt)) ->
  POST rt e (Some (JObj m)) =
    POST rt e (Some (JObj (delete "use_ai_insights"%string m))) /\
  (forall r, POST rt e (Some (JObj m)) = Json200 r ->
     ai_insights r = None /\
     exists s, r = mockResponse_at e (JObj m) s).
Proof.
  intros Hu Hk Hfail.
  assert (Hstep : forall s w,
            ai_step rt e (JObj m) (mockResponse_at e (JObj m) s) w =
            mockResponse_at e (JObj m) s).
  { intros s w. unfold ai_step, ai_requested, prop.
    destruct (m !! "groq_api_key"%string) as [key|]; [|reflexivity].
    rewrite Hu. cbn [andb]. rewrite Hk.
    rewrite generateAIInsights_failed by exact Hfail. reflexivity. }
  split.
  - rewrite !POST_parsed.
    assert (Hz : zones_of (JObj (delete "use_ai_insights"%string m)) = zones_of (JObj m)).
    { unfold zones_of, prop. rewrite lookup_delete_ne by discriminate. reflexivity. }
    rewrite Hz.
    destruct (toStr (Number_toString rt) (zones_of (JObj m))) as [s|]; [|reflexivity].
    rewrite Hstep. f_equal.
    unfold ai_step, ai_requested, prop.
    rewrite lookup_delete_eq. cbn [truthy andb].
    assert (Hm : mockResponse_at e (JObj (delete "use_ai_insights"%string m)) s =
                 mockResponse_at e (JObj m) s).
    { unfold mockResponse_at. rewrite Hz. unfold prop.
      rewrite !lookup_delete_ne by discriminate. reflexivity. }
    rewrite Hm.
    destruct (delete "use_ai_insights"%string m !! "groq_api_key"%string); reflexivity.
  - intros r Hr. rewrite POST_parsed in Hr.
    destruct (toStr (Number_toString rt) (zones_of (JObj m))) as [s|]; [|discriminate].
    rewrite Hstep in Hr. injection Hr as <-.
    split; [reflexivity | exists s; reflexivity].
Qed.

Lemma failed_insights_are_dropped_witness :
  truthy (body_with_ai !! "use_ai_insights"%string) = true /\
  truthy (body_with_ai !! "groq_api_key"%string) = true /\
  (forall auth prompt, fetch_failed (fetch env_low auth prompt)) /\
  POST sample_runtime env_low (Some (JObj body_with_ai)) =
    POST sample_runtime env_low (Some (JObj (delete "use_ai_insights"%string body_with_ai))) /\
  (forall r, POST sample_runtime env_low (Some (JObj body_with_ai)) = Json200 r ->
     ai_insights r = None /\
     exists s, r = mockResponse_at env_low (JObj body_with_ai) s).
Proof.
  split; [reflexivity|].
  split; [reflexivity|].
  split; [intros auth prompt; exact I|].
  apply (failed_insights_are_dropped sample_runtime env_low body_with_ai).
  - reflexivity.
  - reflexivity.
  - intros auth prompt. exact I.
Defined.

(** The three kinds of failure, one environment each, on a request that
    asks for AI insights: the answer is successful and has no
    [ai_insights]. *)
Example failed_insights_runs :
  forall o, In o [FetchRejected; FetchResponse false (Some JNull); FetchResponse true None] ->
    exists r,
      POST sample_runtime (const_env 0 20000 o) (Some (JObj body_with_ai)) = Json200 r /\
      ai_insights r = None.
Proof.
  intros o [<- | [<- | [<- | []]]];
    (eexists; split; [vm_compute; reflexivity | reflexivity]).
Qed.

(** ** C6: the labels of the zone list *)






(** ** C1: two invocations with the same request *)

(** What the draws, the clock and the network do not reach is decided by
    the request alone: whether it can be answered at all. *)
Lemma POST_status_by_request rt e req :
  (exists r, POST rt e req = Json200 r) \/
  (forall e', POST rt e' req = Error500 "Analysis failed").
Proof.
  destruct req as [body|]; [|right; intros; apply POST_unparsed].
  destruct (toStr (Number_toString rt) (zones_of body)) as [s|] eqn:Hs.
  - destruct body;
      try (left; rewrite POST_parsed, Hs; eauto).
    right. intros e'. apply POST_parsed.
  - right. intros e'. rewrite POST_parsed, Hs. destruct body; reflexivity.
Qed.

(** X21: the answer is a function of the request and of what the
    invocation observes: its 26 draws, its 17 clock readings and the
    outcome of the call of the text-generation service. Two invocations
    that agree on those give the same answer, whatever later draws and
    readings would be. *)
Lemma POST_depends_on_observations rt e1 e2 req :
  (forall k, (k < 26)%nat -> Math_random e1 k = Math_random e2 k) ->
  (forall k, (k < 17)%nat -> Date_now e1 k = Date_now e2 k) ->
  (forall auth prompt, fetch e1 auth prompt = fetch e2 auth prompt) ->
  POST rt e1 req = POST rt e2 req.
Proof.
  intros Hr Hd Hf.
  destruct req as [body|]; [|reflexivity].
  rewrite !POST_parsed.
  destruct (toStr (Number_toString rt) (zones_of body)) as [s|]; [|reflexivity].
  assert (Hm : mockResponse_at e1 body s = mockResponse_at e2 body s).
  { unfold mockResponse_at. cbn [map seq Nat.add].
    rewrite !Hr by lia. rewrite !Hd by lia. reflexivity. }
  assert (Hg : forall r key w,
            generateAIInsights rt e1 r key w = generateAIInsights rt e2 r key w).
  { intros r key w. unfold generateAIInsights. run.
    destruct (build_prompt rt r); [|reflexivity].
    destruct (toStr (Number_toString rt) key); [|reflexivity].
    rewrite Hf. reflexivity. }
  unfold ai_step. rewrite Hm.
  destruct (prop body "groq_api_key"); [rewrite Hg|]; reflexivity.
Qed.

(** C1, as amended: two invocations with identical request bodies either
    both fail, with the same error answer, or both succeed, and then they
    agree on the zone count, on the recommendation list, on [crop_type]
    and [crop_growth_stage] and on [mean_ndvi]; the other fields
    ([ndvi_stats], the NDVI values and trend, the rainfall figures, the
    dates) follow the random draws and the clock of each invocation. *)
Theorem same_request_same_fixed_fields rt e1 e2 req :
  match POST rt e1 req, POST rt e2 req with
  | Json200 r1, Json200 r2 =>
      zones_identified r1 = zones_identified r2 /\
      recommendations r1 = recommendations r2 /\
      crop_type r1 = crop_type r2 /\
      crop_growth_stage r1 = crop_growth_stage r2 /\
      mean_ndvi (ndvi_time_series r1) = mean_ndvi (ndvi_time_series r2)
  | Error500 error1, Error500 error2 => error1 = error2
  | _, _ => False
  end.
Proof.
  destruct (POST_status_by_request rt e1 req) as [[r1 H1] | Herr].
  - destruct (POST_status_by_request rt e2 req) as [[r2 H2] | Herr].
    + rewrite H1, H2.
      apply POST_Json200_fields in H1
        as (body & s & -> & _ & Hs & _ & Hz1 & Hr1 & Ht1 & _ & Hc1 & Hg1).
      apply POST_Json200_fields in H2
        as (body' & s' & Hb & _ & Hs' & _ & Hz2 & Hr2 & Ht2 & _ & Hc2 & Hg2).
      injection Hb as <-.
      assert (s' = s) as -> by congruence.
      rewrite Hz1, Hz2, Hr1, Hr2, Hc1, Hc2, Hg1, Hg2, Ht1, Ht2.
      repeat split; reflexivity.
    + rewrite (Herr e1) in H1. discriminate.
  - rewrite !Herr. reflexivity.
Qed.

(** C1 as stated fails: the same request, answered once with every draw
    [0] and once with every draw [0.9], gets two answers that differ in
    the mean NDVI (0.55 and 0.73), in the trend and in the total
    rainfall. *)
Lemma same_request_different_answers :
  POST sample_runtime env_low (Some empty_body) = Json200 answer_low /\
  POST sample_runtime env_high (Some empty_body) = Json200 answer_high /\
  ~ (mean (ndvi_stats answer_low) == mean (ndvi_stats answer_high))%Q /\
  trend (ndvi_time_series answer_low) <> trend (ndvi_time_series answer_high) /\
  ~ (total_rainfall (rainfall_data answer_low) ==
     total_rainfall (rainfall_data answer_high))%Q.
Proof.
  split; [exact POST_env_low|].
  split; [exact POST_env_high|].
  repeat split; vm_compute; congruence.
Qed.

(** * Further properties of the handler *)

(** ** The insights of an answered call *)

Lemma build_prompt_printable rt r :
  is_Some (toStr (Number_toString rt) (zones_identified r)) ->
  printable rt (crop_type r) ->
  printable rt (crop_growth_stage r) ->
  is_Some (build_prompt rt r).
Proof.
  unfold printable, build_prompt. intros [z ->] [c ->] [g ->]. cbn. eauto.
Qed.

(** What [generateAIInsights] returns once the service has answered with
    an ok status and a body in which the content can be read. *)
Lemma generateAIInsights_answered rt e r key w data aiResponse :
  is_Some (build_prompt rt r) ->
  is_Some (toStr (Number_toString rt) key) ->
  (forall auth prompt, fetch e auth prompt = FetchResponse true (Some data)) ->
  reply_content data = Some aiResponse ->
  generateAIInsights rt e r key w =
    (Some match toStrV (Number_toString rt) aiResponse ≫= JSON_parse rt with
          | Some v => v
          | None => fallback_insights aiResponse
          end, w).
Proof.
  intros [prompt Hp] [k Hk] Hf Hc.
  unfold generateAIInsights. rewrite Hp, Hk. run. rewrite Hf. run.
  unfold reply_content in Hc.
  destruct (get (Some data) "choices") as [choices|]; [|discriminate]. cbn in Hc. run.
  destruct (get0 choices) as [first|]; [|discriminate]. cbn in Hc. run.
  destruct (get first "message") as [message|]; [|discriminate]. cbn in Hc. run.
  rewrite Hc. run.
  destruct (toStrV (Number_toString rt) aiResponse) as [text|]; cbn; run; [|reflexivity].
  destruct (JSON_parse rt text); reflexivity.
Qed.

(** And when the content cannot be read. *)
Lemma generateAIInsights_unreadable rt e r key w data :
  (forall auth prompt, fetch e auth prompt = FetchResponse true (Some data)) ->
  reply_content data = None ->
  generateAIInsights rt e r key w = (Some JNull, w).
Proof.
  intros Hf Hc.
  unfold generateAIInsights. run.
  destruct (build_prompt rt r) as [prompt|]; run; [|reflexivity].
  destruct (toStr (Number_toString rt) key) as [k|]; run; [|reflexivity].
  rewrite Hf. run.
  unfold reply_content in Hc.
  destruct (get (Some data) "choices") as [choices|]; run; [|reflexivity]. cbn in Hc.
  destruct (get0 choices) as [first|]; run; [|reflexivity]. cbn in Hc.
  destruct (get first "message") as [message|]; run; [|reflexivity]. cbn in Hc.
  rewrite Hc. reflexivity.
Qed.

(** The answer to a request that asks for insights, by what
    [generateAIInsights] returns. *)
Lemma POST_with_insights rt e (m : gmap string JSON) key s ai :
  truthy (m !! "use_ai_insights"%string) = true ->
  m !! "groq_api_key"%string = Some key ->
  truthy (Some key) = true ->
  toStr (Number_toString rt) (zones_of (JObj m)) = Some s ->
  generateAIInsights rt e (mockResponse_at e (JObj m) s) key {| draws := 26; reads := 17 |} =
    (Some ai, {| draws := 26; reads := 17 |}) ->
  POST rt e (Some (JObj m)) =
    Json200 (if truthy (Some ai)
             then set_ai_insights (mockResponse_at e (JObj m) s) ai
             else mockResponse_at e (JObj m) s).
Proof.
  intros Hu Hk Ht Hs Hg.
  rewrite POST_parsed, Hs. f_equal.
  unfold ai_step, ai_requested, prop. rewrite Hk, Hu, Ht, Hg. reflexivity.
Qed.

Lemma mockResponse_at_prompt rt e (m : gmap string JSON) s :
  toStr (Number_toString rt) (zones_of (JObj m)) = Some s ->
  printable rt (m !! "crop_type"%string) ->
  printable rt (m !! "crop_growth_stage"%string) ->
  is_Some (build_prompt rt (mockResponse_at e (JObj m) s)).
Proof.
  intros Hs Hc Hg. apply build_prompt_printable; cbn [mockResponse_at zones_identified
    crop_type crop_growth_stage prop]; eauto.
Qed.

(** X1: when insights are requested and the service answers with an ok
    status and a message content that [JSON.parse] accepts as a truthy
    value (the values converted to text for the prompt and the key being
    printable), the answer of the handler is the one built before the AI
    step with that value as [ai_insights]. *)
Theorem parsed_insights_attached rt e (m : gmap string JSON) key s data aiResponse text v :
  truthy (m !! "use_ai_insights"%string) = true ->
  m !! "groq_api_key"%string = Some key ->
  truthy (Some key) = true ->
  toStr (Number_toString rt) key <> None ->
  toStr (Number_toString rt) (zones_of (JObj m)) = Some s ->
  printable rt (m !! "crop_type"%string) ->
  printable rt (m !! "crop_growth_stage"%string) ->
  (forall auth prompt, fetch e auth prompt = FetchResponse true (Some data)) ->
  reply_content data = Some aiResponse ->
  toStrV (Number_toString rt) aiResponse = Some text ->
  JSON_parse rt text = Some v ->
  truthy (Some v) = true ->
  POST rt e (Some (JObj m)) = Json200 (set_ai_insights (mockResponse_at e (JObj m) s) v).
Proof.
  intros Hu Hk Ht Hkp Hs Hc Hg Hf Hr Htext Hparse Hv.
  rewrite (POST_with_insights rt e m key s v Hu Hk Ht Hs).
  - rewrite Hv. reflexivity.
  - rewrite (generateAIInsights_answered rt e _ key _ data aiResponse).
    + rewrite Htext. cbn. rewrite Hparse. reflexivity.
    + apply mockResponse_at_prompt; assumption.
    + destruct (toStr (Number_toString rt) key); [eauto | congruence].
    + exact Hf.
    + exact Hr.
Qed.

Lemma parsed_insights_attached_witness :
  POST literal_runtime (env_answering (chat_completion (JStr "true"))) (Some (JObj body_with_ai)) =
    Json200 (set_ai_insights
               (mockResponse_at (env_answering (chat_completion (JStr "true")))
                  (JObj body_with_ai) "3")
               (JBool true)).
Proof.
  apply (parsed_insights_attached literal_runtime
           (env_answering (chat_completion (JStr "true"))) body_with_ai (JStr "key") "3"
           (chat_completion (JStr "true")) (Some (JStr "true")) "true" (JBool true));
    try reflexivity.
  - discriminate.
  - exists "Wheat". reflexivity.
  - exists "undefined". reflexivity.
Defined.

(** X2: when the message content is not text that [JSON.parse] accepts,
    the answer carries the fallback insights: the raw content as [report]
    and the three stock suggestions. *)
Theorem unparsed_insights_fall_back rt e (m : gmap string JSON) key s data content :
  truthy (m !! "use_ai_insights"%string) = true ->
  m !! "groq_api_key"%string = Some key ->
  truthy (Some key) = true ->
  toStr (Number_toString rt) key <> None ->
  toStr (Number_toString rt) (zones_of (JObj m)) = Some s ->
  printable rt (m !! "crop_type"%string) ->
  printable rt (m !! "crop_growth_stage"%string) ->
  (forall auth prompt, fetch e auth prompt = FetchResponse true (Some data)) ->
  reply_content data = Some (Some content) ->
  toStr (Number_toString rt) content ≫= JSON_parse rt = None ->
  exists insights,
    POST rt e (Some (JObj m)) =
      Json200 (set_ai_insights (mockResponse_at e (JObj m) s) (JObj insights)) /\
    insights !! "report"%string = Some content /\
    insights !! "suggestions"%string =
      Some (JArr [ JStr "Monitor field conditions regularly";
                   JStr "Consider soil testing in low-performing areas";
                   JStr "Implement variable rate application based on zones" ]) /\
    is_Some (insights !! "risk_assessment"%string) /\
    is_Some (insights !! "management_plan"%string).
Proof.
  intros Hu Hk Ht Hkp Hs Hc Hg Hf Hr Hparse.
  eexists. split.
  - rewrite (POST_with_insights rt e m key s (fallback_insights (Some content)) Hu Hk Ht Hs).
    + reflexivity.
    + rewrite (generateAIInsights_answered rt e _ key _ data (Some content)).
      * cbn [toStrV]. rewrite Hparse. reflexivity.
      * apply mockResponse_at_prompt; assumption.
      * destruct (toStr (Number_toString rt) key); [eauto | congruence].
      * exact Hf.
      * exact Hr.
  - repeat split; try reflexivity; eexists; reflexivity.
Qed.

Lemma unparsed_insights_fall_back_witness :
  exists insights,
    POST literal_runtime (env_answering (chat_completion (JStr "The field is healthy.")))
      (Some (JObj body_with_ai)) =
      Json200 (set_ai_insights
                 (mockResponse_at (env_answering (chat_completion (JStr "The field is healthy.")))
                    (JObj body_with_ai) "3")
                 (JObj insights)) /\
    insights !! "report"%string = Some (JStr "The field is healthy.").
Proof.
  destruct (unparsed_insights_fall_back literal_runtime
              (env_answering (chat_completion (JStr "The field is healthy."))) body_with_ai
              (JStr "key") "3" (chat_completion (JStr "The field is healthy."))
              (JStr "The field is healthy."))
    as (insights & HP & Hreport & _); try reflexivity.
  - discriminate.
  - exists "Wheat". reflexivity.
  - exists "undefined". reflexivity.
  - exists insights. split; [exact HP | exact Hreport].
Defined.

(** X3: when the message content parses to a falsy value ([null],
    [false], [0] or the empty string), the answer has no [ai_insights]:
    it is the object built before the AI step. *)
Theorem falsy_insights_dropped rt e (m : gmap string JSON) key s data aiResponse text v :
  truthy (m !! "use_ai_insights"%string) = true ->
  m !! "groq_api_key"%string = Some key ->
  truthy (Some key) = true ->
  toStr (Number_toString rt) key <> None ->
  toStr (Number_toString rt) (zones_of (JObj m)) = Some s ->
  printable rt (m !! "crop_type"%string) ->
  printable rt (m !! "crop_growth_stage"%string) ->
  (forall auth prompt, fetch e auth prompt = FetchResponse true (Some data)) ->
  reply_content data = Some aiResponse ->
  toStrV (Number_toString rt) aiResponse = Some text ->
  JSON_parse rt text = Some v ->
  truthy (Some v) = false ->
  POST rt e (Some (JObj m)) = Json200 (mockResponse_at e (JObj m) s).
Proof.
  intros Hu Hk Ht Hkp Hs Hc Hg Hf Hr Htext Hparse Hv.
  rewrite (POST_with_insights rt e m key s v Hu Hk Ht Hs).
  - rewrite Hv. reflexivity.
  - rewrite (generateAIInsights_answered rt e _ key _ data aiResponse).
    + rewrite Htext. cbn. rewrite Hparse. reflexivity.
    + apply mockResponse_at_prompt; assumption.
    + destruct (toStr (Number_toString rt) key); [eauto | congruence].
    + exact Hf.
    + exact Hr.
Qed.

Lemma falsy_insights_dropped_witness :
  POST literal_runtime (env_answering (chat_completion (JStr "null"))) (Some (JObj body_with_ai)) =
    Json200 (mockResponse_at (env_answering (chat_completion (JStr "null")))
               (JObj body_with_ai) "3").
Proof.
  apply (falsy_insights_dropped literal_runtime
           (env_answering (chat_completion (JStr "null"))) body_with_ai (JStr "key") "3"
           (chat_completion (JStr "null")) (Some (JStr "null")) "null" JNull);
    try reflexivity.
  - discriminate.
  - exists "Wheat". reflexivity.
  - exists "undefined". reflexivity.
Defined.

(** X4: when the service answers with an ok status and a body in which
    [choices[0].message.content] cannot be read (no [choices], an empty
    [choices] array, no [message]), the TypeError is swallowed: a
    successful answer has no [ai_insights] and is the object built before
    the AI step, and a request that is answered without the AI step is
    answered with it. *)
Theorem unreadable_reply_dropped rt e (body : JSON) data :
  (forall auth prompt, fetch e auth prompt = FetchResponse true (Some data)) ->
  reply_content data = None ->
  (forall r, POST rt e (Some body) = Json200 r ->
     ai_insights r = None /\ exists s, r = mockResponse_at e body s) /\
  (body <> JNull ->
   is_Some (toStr (Number_toString rt) (zones_of body)) ->
   exists r, POST rt e (Some body) = Json200 r).
Proof.
  intros Hf Hc.
  assert (Hstep : forall s w, ai_step rt e body (mockResponse_at e body s) w =
                              mockResponse_at e body s).
  { intros s w. unfold ai_step.
    destruct (prop body "groq_api_key") as [key|]; [|reflexivity].
    destruct (ai_requested body); [|reflexivity].
    rewrite (generateAIInsights_unreadable rt e _ key w data Hf Hc). reflexivity. }
  split.
  - intros r Hr. apply POST_Json200_inv in Hr as (body' & s & Hb & _ & _ & ->).
    injection Hb as <-. rewrite Hstep. split; [reflexivity | eauto].
  - intros Hnn [s Hs]. destruct (POST_parsed_ok rt e body s Hnn Hs) as (r & Hr & _). eauto.
Qed.

Lemma unreadable_reply_dropped_witness :
  reply_content (JObj {[ "choices"%string := JArr [] ]}) = None /\
  exists r,
    POST sample_runtime (env_answering (JObj {[ "choices"%string := JArr [] ]}))
      (Some (JObj body_with_ai)) = Json200 r /\
    ai_insights r = None.
Proof.
  split; [reflexivity|].
  destruct (unreadable_reply_dropped sample_runtime
              (env_answering (JObj {[ "choices"%string := JArr [] ]}))
              (JObj body_with_ai) (JObj {[ "choices"%string := JArr [] ]}))
    as [Hnone Hok]; [reflexivity | reflexivity |].
  destruct Hok as [r Hr]; [discriminate | exists "3"; reflexivity |].
  exists r. split; [exact Hr | apply (Hnone r Hr)].
Defined.

(** X5: an answer carries [ai_insights] only if the request asked for
    them (a truthy [use_ai_insights] and a truthy [groq_api_key]), and the
    value the handler attaches is truthy: it is not [null], [false], [0]
    or the empty string. (An infinity is truthy: see
    [infinite_insights_sent_as_null].) *)
Theorem insights_only_on_request rt e body r v :
  POST rt e (Some body) = Json200 r ->
  ai_insights r = Some v ->
  ai_requested body = true /\ truthy (Some v) = true.
Proof.
  intros Hr Hv.
  apply POST_Json200_inv in Hr as (body' & s & Hb & _ & _ & ->).
  injection Hb as <-.
  unfold ai_step in Hv.
  destruct (prop body "groq_api_key") as [key|]; [|discriminate].
  destruct (ai_requested body); [|discriminate].
  destruct (generateAIInsights rt e (mockResponse_at e body s) key _) as [[ai|] ?];
    [|discriminate].
  destruct (truthy (Some ai)) eqn:Hai; [|discriminate].
  cbn in Hv. injection Hv as <-. split; [reflexivity | exact Hai].
Qed.

Lemma insights_only_on_request_witness :
  ai_requested (JObj body_with_ai) = true /\ truthy (Some (JBool true)) = true.
Proof.
  apply (insights_only_on_request literal_runtime
           (env_answering (chat_completion (JStr "true"))) (JObj body_with_ai)
           (set_ai_insights
              (mockResponse_at (env_answering (chat_completion (JStr "true")))
                 (JObj body_with_ai) "3")
              (JBool true)) (JBool true)).
  - vm_compute. reflexivity.
  - reflexivity.
Defined.

(** A content that parses to an infinity is attached, and the client
    reads [null] for it. *)
Example infinite_insights_sent_as_null :
  POST huge_number_runtime (env_answering (chat_completion (JStr "1e999")))
    (Some (JObj body_with_ai)) =
    Json200 (set_ai_insights
               (mockResponse_at (env_answering (chat_completion (JStr "1e999")))
                  (JObj body_with_ai) "3")
               (JInfinity false)) /\
  truthy (Some (JInfinity false)) = true /\
  wire (JInfinity false) = JNull.
Proof. repeat split; vm_compute; reflexivity. Qed.

(** X6: when the request does not ask for insights, the answer does not
    depend on the text-generation service: whatever [fetch] would do, the
    answer is the same. *)
Theorem network_unused_without_request rt e body
    (other_fetch : string -> string -> FetchOutcome) :
  ai_requested body = false ->
  POST rt {| Math_random := Math_random e; Date_now := Date_now e; fetch := other_fetch |}
       (Some body) =
  POST rt e (Some body).
Proof.
  intros Hreq. rewrite !POST_parsed.
  destruct (toStr (Number_toString rt) (zones_of body)) as [s|]; [|reflexivity].
  unfold ai_step. rewrite Hreq.
  destruct (prop body "groq_api_key"); destruct body; reflexivity.
Qed.

Lemma network_unused_without_request_witness :
  ai_requested empty_body = false /\
  POST sample_runtime
       {| Math_random := Math_random env_low; Date_now := Date_now env_low;
          fetch := fun _ _ => FetchResponse true (Some (chat_completion (JStr "true"))) |}
       (Some empty_body) =
  POST sample_runtime env_low (Some empty_body).
Proof.
  split; [reflexivity|].
  apply (network_unused_without_request sample_runtime env_low empty_body).
  reflexivity.
Defined.

(** ** Bodies of every shape *)

(** X7: a body that is valid JSON but neither an object nor [null] (a
    number, a string, a boolean, an array) is not rejected: it is answered
    like an empty object, with three zones, no crop fields and no
    insights. *)
Theorem scalar_body_gets_defaults rt e body :
  match body with
  | JNull => False
  | JObj _ => False
  | _ => True
  end ->
  exists r,
    POST rt e (Some body) = Json200 r /\
    zones_identified r = JNum 3 /\
    crop_type r = None /\
    crop_growth_stage r = None /\
    ai_insights r = None /\
    recommendations r = recommendations (mockResponse_at e empty_body (Number_toString rt 3)).
Proof.
  intros Hb. rewrite POST_parsed.
  destruct body; try contradiction;
    (eexists; split; [reflexivity | repeat split; reflexivity]).
Qed.

Lemma scalar_body_gets_defaults_witness :
  exists r,
    POST sample_runtime env_low (Some (JArr [JNum 1; JNum 2])) = Json200 r /\
    zones_identified r = JNum 3 /\
    crop_type r = None.
Proof.
  destruct (scalar_body_gets_defaults sample_runtime env_low (JArr [JNum 1; JNum 2]))
    as (r & Hr & Hz & Hc & _); [exact I|].
  exists r. repeat split; assumption.
Defined.

(** X8: a [num_zones] that is a non-empty string is taken as the zone
    count as it is and is quoted verbatim in the third recommendation. *)
Theorem text_zone_count_quoted rt e (m : gmap string JSON) (text : string) :
  m !! "num_zones"%string = Some (JStr text) ->
  text <> EmptyString ->
  exists r,
    POST rt e (Some (JObj m)) = Json200 r /\
    zones_identified r = JStr text /\
    recommendations r !! 2%nat =
      Some ("Consider variable rate application based on the " +:+ text +:+
            " identified management zones.").
Proof.
  intros Hm Ht.
  assert (Hz : zones_of (JObj m) = JStr text).
  { unfold zones_of, or_default, prop. rewrite Hm. cbn [truthy].
    destruct (String.eqb_spec text ""); [contradiction | reflexivity]. }
  assert (HP : POST rt e (Some (JObj m)) =
               Json200 (ai_step rt e (JObj m) (mockResponse_at e (JObj m) text)
                          {| draws := 26; reads := 17 |})).
  { rewrite POST_parsed, Hz. reflexivity. }
  eexists. split; [exact HP|].
  apply POST_Json200_fields in HP
    as (body' & s' & Hb & _ & Hs & _ & Hzr & Hr & _).
  injection Hb as <-. rewrite Hz in Hs. injection Hs as <-.
  split; [congruence|]. rewrite Hr. reflexivity.
Qed.

Lemma text_zone_count_quoted_witness :
  exists r,
    POST sample_runtime env_low (Some (JObj {[ "num_zones"%string := JStr "<b>7</b>" ]})) =
      Json200 r /\
    zones_identified r = JStr "<b>7</b>" /\
    recommendations r !! 2%nat =
      Some "Consider variable rate application based on the <b>7</b> identified management zones."%string.
Proof.
  apply (text_zone_count_quoted sample_runtime env_low
           {[ "num_zones"%string := JStr "<b>7</b>" ]} "<b>7</b>").
  - reflexivity.
  - discriminate.
Defined.

(** ** Ranges of the series *)

(** X9: for draws in [[0, 1)], the processing time of a successful answer
    lies in [[1.5, 2.5]] and each of its seven NDVI values in
    [[0.25, 0.95]], up to a rounding margin of [10^-15]; the values are
    therefore strictly inside the [[0, 1]] range of the axis of the NDVI
    chart. *)
Theorem series_within_chart_axis rt e req r :
  unit_draws e ->
  POST rt e req = Json200 r ->
  (1.5 - ndvi_slack <= processing_time r /\ processing_time r <= 2.5 + ndvi_slack)%Q /\
  length (ndvi_values (ndvi_time_series r)) = 7%nat /\
  Forall (fun v => 0.25 - ndvi_slack <= v /\ v <= 0.95 + ndvi_slack /\ 0 < v /\ v < 1)%Q
    (ndvi_values (ndvi_time_series r)).
Proof.
  intros Hu H.
  pose proof H as H'.
  apply POST_Json200_fields in H as (body & s & _ & _ & _ & _ & _ & _ & -> & _).
  apply POST_Json200_inv in H' as (body' & s' & _ & _ & _ & ->).
  pose proof (ai_step_fields rt e body' (mockResponse_at e body' s')
                {| draws := 26; reads := 17 |}) as F.
  cbv zeta in F. destruct F as (_ & _ & -> & _).
  split.
  { cbn [processing_time mockResponse_at]. pose proof (Hu 4%nat) as [? ?].
    unfold ndvi_slack. bound_roundings. split; lra. }
  split; [reflexivity|].
  pose proof (Hu 5%nat) as [? ?]. pose proof (Hu 6%nat) as [? ?].
  pose proof (Hu 7%nat) as [? ?]. pose proof (Hu 8%nat) as [? ?].
  pose proof (Hu 9%nat) as [? ?]. pose proof (Hu 10%nat) as [? ?].
  pose proof (Hu 11%nat) as [? ?].
  cbn [ndvi_time_series mockResponse_at ndvi_values map seq Nat.add].
  unfold ndvi_slack. bound_roundings.
  repeat (apply Forall_cons; split; [repeat split; lra|]).
  apply Forall_nil. exact I.
Qed.

Lemma series_within_chart_axis_witness :
  (1.5 - ndvi_slack <= processing_time answer_high /\
   processing_time answer_high <= 2.5 + ndvi_slack)%Q /\
  length (ndvi_values (ndvi_time_series answer_high)) = 7%nat /\
  Forall (fun v => 0.25 - ndvi_slack <= v /\ v <= 0.95 + ndvi_slack /\ 0 < v /\ v < 1)%Q
    (ndvi_values (ndvi_time_series answer_high)).
Proof.
  apply (series_within_chart_axis sample_runtime env_high (Some empty_body) answer_high).
  - apply unit_draws_const; vm_compute; congruence.
  - exact POST_env_high.
Defined.

(** ** The requests of the page *)

Lemma body_of_form_lookups formData :
  prop (body_of_form formData) "num_zones" = Some (JNum (Form.num_zones formData)) /\
  prop (body_of_form formData) "crop_type" = Some (JStr (Form.crop_type formData)) /\
  prop (body_of_form formData) "crop_growth_stage" =
    Some (JStr (Form.crop_growth_stage formData)) /\
  prop (body_of_form formData) "use_ai_insights" =
    Some (JBool (Form.use_ai_insights formData)) /\
  prop (body_of_form formData) "groq_api_key" = JStr <$> Form.groq_api_key formData.
Proof.
  unfold body_of_form, prop.
  destruct (Form.groq_api_key formData); repeat split; reflexivity.
Qed.

(** X11: whatever the state of the form, the body the page sends is
    answered successfully: with the [num_zones] of the form as zone count
    ([3] when it is [0]) and its crop type and growth stage echoed. The
    request asks for insights exactly when the switch is on and the key
    field is not empty. *)
Theorem form_request_answered rt e (formData : Form.AnalysisRequest) :
  (exists r,
     POST rt e (Some (body_of_form formData)) = Json200 r /\
     zones_identified r =
       (if Qeq_bool (Form.num_zones formData) 0 then JNum 3
        else JNum (Form.num_zones formData)) /\
     crop_type r = Some (JStr (Form.crop_type formData)) /\
     crop_growth_stage r = Some (JStr (Form.crop_growth_stage formData))) /\
  ai_requested (body_of_form formData) =
    Form.use_ai_insights formData &&
    match Form.groq_api_key formData with
    | Some key => negb (String.eqb key "")
    | None => false
    end.
Proof.
  destruct (body_of_form_lookups formData) as (Hn & Hc & Hg & Hu & Hk).
  assert (Hz : zones_of (body_of_form formData) =
               if Qeq_bool (Form.num_zones formData) 0 then JNum 3
               else JNum (Form.num_zones formData)).
  { unfold zones_of, or_default. rewrite Hn. cbn [truthy].
    destruct (Qeq_bool (Form.num_zones formData) 0); reflexivity. }
  split.
  - destruct (POST_parsed_ok rt e (body_of_form formData)
                (Number_toString rt (if Qeq_bool (Form.num_zones formData) 0 then 3%Q
                                     else Form.num_zones formData)))
      as (r & HP & Hzr & Hcr & Hgr).
    + discriminate.
    + rewrite Hz. destruct (Qeq_bool (Form.num_zones formData) 0); reflexivity.
    + exists r. split; [exact HP|]. split; [congruence|]. split; congruence.
  - unfold ai_requested. rewrite Hu, Hk.
    destruct (Form.groq_api_key formData); reflexivity.
Qed.

(** * Properties of the results page and of the map *)

(** ** The zone list at the edges *)

(** An order between integers, through their images among the rationals. *)
Ltac by_rationals :=
  rewrite Zlt_Qlt;
  repeat match goal with
         | |- context [inject_Z (Zpos ?p)] => change (inject_Z (Zpos p)) with (Zpos p # 1)
         | |- context [inject_Z 0] => change (inject_Z 0) with 0%Q
         end;
  lra.

Lemma Qceiling_above_floor (q : Q) :
  (inject_Z (Qfloor q) < q)%Q -> Qceiling q = (Qfloor q + 1)%Z.
Proof.
  intros H.
  pose proof (Qlt_floor q) as H2. pose proof (Qle_ceiling q) as H3.
  pose proof (Qceiling_lt q) as H4.
  assert (A : (Qfloor q < Qceiling q)%Z) by by_rationals.
  assert (B : (Qceiling q - 1 < Qfloor q + 1)%Z) by by_rationals.
  lia.
Qed.

(** The floor of a rational below an integer is below it, and its ceiling
    is at most an integer it does not exceed. *)
Lemma Qfloor_below (q : Q) (b : Z) : (q < inject_Z b)%Q -> (Qfloor q < b)%Z.
Proof.
  intros H. rewrite Zlt_Qlt. apply Qle_lt_trans with q; [apply Qfloor_le | exact H].
Qed.

Lemma Qfloor_above (q : Q) (a : Z) : (inject_Z a <= q)%Q -> (a <= Qfloor q)%Z.
Proof.
  intros H. rewrite <- (Qfloor_Z a). apply Qfloor_resp_le, H.
Qed.

Lemma Qceiling_below (q : Q) (b : Z) : (q <= inject_Z b)%Q -> (Qceiling q <= b)%Z.
Proof.
  intros H. rewrite <- (Qceiling_Z b). apply Qceiling_resp_le, H.
Qed.

(** X12: a zone count below [1] lists no zone at all; a zone count of
    [0] or less (as the handler returns for a negative [num_zones]) draws
    no circle on the map either; and a count from [1] up to but not
    including [2] lists one zone, labelled [Low vigor]. *)
Theorem few_zones_listed (bufferSize q : Q) :
  ((q < 1)%Q -> field_zones q = []) /\
  ((q <= 0)%Q -> map_zones bufferSize q = []) /\
  ((1 <= q)%Q -> (q < 2)%Q -> field_zones q = [(1%nat, "Low vigor"%string)]).
Proof.
  split; [|split].
  - intros Hq. unfold field_zones.
    pose proof (Qfloor_below q 1 Hq).
    replace (Z.to_nat (Qfloor q)) with 0%nat by lia. reflexivity.
  - intros Hq. unfold map_zones.
    pose proof (Qceiling_below q 0 Hq).
    replace (Z.to_nat (Qceiling q)) with 0%nat by lia. reflexivity.
  - intros Hlo Hhi. unfold field_zones.
    pose proof (Qfloor_below q 2 Hhi). pose proof (Qfloor_above q 1 Hlo).
    replace (Z.to_nat (Qfloor q)) with 1%nat by lia. reflexivity.
Qed.

Lemma few_zones_listed_witness :
  field_zones (-1) = [] /\
  map_zones 250 (-1) = [] /\
  field_zones 1 = [(1%nat, "Low vigor"%string)].
Proof.
  destruct (few_zones_listed 250 (-1)) as (H1 & H2 & _).
  destruct (few_zones_listed 250 1) as (_ & _ & H3).
  split; [apply H1; vm_compute; reflexivity|].
  split; [apply H2; vm_compute; congruence|].
  apply H3; vm_compute; congruence.
Defined.

(** X13: when the zone count is not a whole number, no row of the zone
    list is labelled [High vigor], and the map draws one circle more than
    the list has rows. *)
Theorem fractional_zone_count bufferSize (q : Q) :
  (inject_Z (Qfloor q) < q)%Q ->
  (0 < q)%Q ->
  Forall (fun row => snd row <> "High vigor"%string) (field_zones q) /\
  length (map_zones bufferSize q) = S (length (field_zones q)).
Proof.
  intros Hfrac Hpos. split.
  - unfold field_zones. apply Forall_map, Forall_forall. intros i _. cbn [snd].
    unfold zone_label.
    destruct (Nat.eqb i 0); [discriminate|].
    destruct (Qeq_bool (inject_Z (Z.of_nat i)) (q - 1)) eqn:E; [|discriminate].
    exfalso. apply Qeq_bool_iff in E.
    assert (Hq : (q == inject_Z (Z.of_nat i + 1))%Q).
    { rewrite inject_Z_plus. change (inject_Z 1) with 1%Q. lra. }
    assert (Hf : Qfloor q = (Z.of_nat i + 1)%Z).
    { rewrite (Qfloor_comp _ _ Hq). apply Qfloor_Z. }
    rewrite Hf in Hfrac. lra.
  - unfold map_zones, field_zones.
    rewrite !length_map, !length_seq, Qceiling_above_floor by exact Hfrac.
    pose proof (Qfloor_above q 0 (Qlt_le_weak _ _ Hpos)).
    lia.
Qed.

Lemma fractional_zone_count_witness :
  field_zones 2.5 = [(1%nat, "Low vigor"%string); (2%nat, "Moderate vigor"%string)] /\
  Forall (fun row => snd row <> "High vigor"%string) (field_zones 2.5) /\
  length (map_zones 250 2.5) = 3%nat.
Proof.
  split; [reflexivity|].
  apply (fractional_zone_count 250 2.5); vm_compute; reflexivity.
Defined.

(** X14: for a whole number [n] of zones, the hues of the dots of the
    zone list rise with the row and stay in [[0, 360)]: no two rows have
    the same hue. *)
Theorem zone_hues_distinct (n i j : nat) :
  (i < j)%nat ->
  (j < n)%nat ->
  (0 <= zone_hue i (inject_Z (Z.of_nat n)) /\
   zone_hue i (inject_Z (Z.of_nat n)) < zone_hue j (inject_Z (Z.of_nat n)) /\
   zone_hue j (inject_Z (Z.of_nat n)) < 360)%Q.
Proof.
  intros Hij Hjn. unfold zone_hue.
  assert (Hn : (0 < inject_Z (Z.of_nat n))%Q).
  { change 0%Q with (inject_Z 0). rewrite <- Zlt_Qlt. lia. }
  assert (Hi : (0 <= inject_Z (Z.of_nat i))%Q).
  { change 0%Q with (inject_Z 0). rewrite <- Zle_Qle. lia. }
  assert (Hlt : (inject_Z (Z.of_nat i) < inject_Z (Z.of_nat j))%Q).
  { rewrite <- Zlt_Qlt. lia. }
  assert (Hjn' : (inject_Z (Z.of_nat j) < inject_Z (Z.of_nat n))%Q).
  { rewrite <- Zlt_Qlt. lia. }
  split; [|split].
  - apply Qle_shift_div_l; [exact Hn | lra].
  - unfold Qdiv. apply Qmult_lt_compat_r; [apply Qinv_lt_0_compat; exact Hn | lra].
  - apply Qlt_shift_div_r; [exact Hn | lra].
Qed.

Lemma zone_hues_distinct_witness :
  (0 <= zone_hue 1 3 /\ zone_hue 1 3 < zone_hue 2 3 /\ zone_hue 2 3 < 360)%Q.
Proof.
  apply (zone_hues_distinct 3 1 2); lia.
Defined.

(** ** The charts *)

Lemma formatNDVIData_zip dates values :
  length dates = length values ->
  formatNDVIData dates values = zip dates (Some <$> values).
Proof.
  intros Hlen. apply list_eq. intros i.
  unfold formatNDVIData. rewrite list_lookup_imap.
  rewrite lookup_zip_with, list_lookup_fmap.
  destruct (dates !! i) as [d|] eqn:Hd; cbn; [|reflexivity].
  destruct (values !! i) as [v|] eqn:Hv; cbn; [reflexivity|].
  apply lookup_lt_Some in Hd. apply lookup_ge_None in Hv. lia.
Qed.

(** X15: for every successful answer of the handler the NDVI chart has
    seven points and the rainfall chart ten bars, the point of index [i]
    pairing the date of index [i] with the value of index [i]: no point
    is left without a value. *)
Theorem charts_fully_valued rt e req r :
  POST rt e req = Json200 r ->
  formatNDVIData (dates (ndvi_time_series r)) (ndvi_values (ndvi_time_series r)) =
    zip (dates (ndvi_time_series r)) (Some <$> ndvi_values (ndvi_time_series r)) /\
  length (formatNDVIData (dates (ndvi_time_series r))
            (ndvi_values (ndvi_time_series r))) = 7%nat /\
  formatRainfallData (rainfall_dates (rainfall_data r)) (rainfall_values (rainfall_data r)) =
    zip (rainfall_dates (rainfall_data r)) (Some <$> rainfall_values (rainfall_data r)) /\
  length (formatRainfallData (rainfall_dates (rainfall_data r))
            (rainfall_values (rainfall_data r))) = 10%nat.
Proof.
  intros H.
  apply POST_Json200_fields in H as (body & s & _ & _ & _ & _ & _ & _ & -> & -> & _).
  split; [apply formatNDVIData_zip; reflexivity|].
  split; [reflexivity|].
  split; [apply (formatNDVIData_zip _ _); reflexivity | reflexivity].
Qed.

Lemma charts_fully_valued_witness :
  length (formatNDVIData (dates (ndvi_time_series answer_high))
            (ndvi_values (ndvi_time_series answer_high))) = 7%nat /\
  length (formatRainfallData (rainfall_dates (rainfall_data answer_high))
            (rainfall_values (rainfall_data answer_high))) = 10%nat.
Proof.
  destruct (charts_fully_valued sample_runtime env_high (Some empty_body) answer_high
              POST_env_high) as (_ & H7 & _ & H10).
  split; [exact H7 | exact H10].
Defined.

(** ** [handleAnalyze] *)

(** The loop over the progress messages writes the message and the
    progress only. *)
Lemma show_steps_writes steps i n st :
  results (show_steps steps i n st) = results st /\
  loading (show_steps steps i n st) = loading st /\
  error (show_steps steps i n st) = error st /\
  currentStep (show_steps steps i n st) = default (currentStep st) (last steps).
Proof.
  revert i st. induction steps as [|step rest IH]; intros i st; [cbn; tauto|].
  cbn [show_steps].
  destruct (IH (S i) (setProgress
    ((inject_Z (Z.of_nat i) + 1) * (100 / inject_Z (Z.of_nat n)))
    (setCurrentStep step st))) as (Hr & Hl & He & Hc).
  rewrite Hr, Hl, He, Hc. cbn [setProgress setCurrentStep results loading error currentStep].
  repeat split.
  destruct rest as [|s rest]; [reflexivity|].
  change (last (step :: s :: rest)) with (last (s :: rest)).
  destruct (last (s :: rest)) eqn:E; [reflexivity|].
  apply last_None in E. discriminate.
Qed.

(** X16: when the endpoint answers with an ok status and a readable
    body, [handleAnalyze] ends with that body as the results, the error
    cleared, the page idle, the progress at [100] and the message
    [Analysis complete!], whatever the page showed before. *)
Theorem analysis_success_shown formData data st :
  let st' := handleAnalyze formData (PageFetchResponse true (inr data)) st in
  results st' = Some data /\
  error st' = None /\
  loading st' = false /\
  progress st' = 100%Q /\
  currentStep st' = "Analysis complete!"%string.
Proof.
  cbv zeta. unfold handleAnalyze.
  destruct (show_steps_writes (analysis_steps (Form.use_ai_insights formData)) 0
              (length (analysis_steps (Form.use_ai_insights formData)))
              (setCurrentStep "Initializing analysis..."
                 (setProgress 0 (setError None (setLoading true st)))))
    as (_ & _ & He & _).
  cbn [setProgress setLoading setCurrentStep setResults results error loading progress
       currentStep].
  rewrite He. repeat split.
Qed.

(** X17: when the request fails (the fetch rejects, the status is not
    ok, or the body cannot be read) [handleAnalyze] leaves the results of
    the previous analysis in place and sets an error message: [Analysis
    failed] for a status that is not ok, the message of the error
    otherwise. The page ends idle, with progress [100] and the message of
    the last progress step. *)
Theorem analysis_failure_keeps_results formData reply st :
  reply_failed reply ->
  let st' := handleAnalyze formData reply st in
  results st' = results st /\
  error st' =
    Some match reply with
         | PageFetchResponse false _ => "Analysis failed"%string
         | PageFetchResponse true (inl err) => error_message err
         | PageFetchResponse true (inr _) => EmptyString
         | PageFetchRejected err => error_message err
         end /\
  loading st' = false /\
  progress st' = 100%Q /\
  currentStep st' =
    (if Form.use_ai_insights formData then "Generating AI-powered report..."
     else "Generating insights...")%string.
Proof.
  intros Hfail. cbv zeta. unfold handleAnalyze.
  destruct (show_steps_writes (analysis_steps (Form.use_ai_insights formData)) 0
              (length (analysis_steps (Form.use_ai_insights formData)))
              (setCurrentStep "Initializing analysis..."
                 (setProgress 0 (setError None (setLoading true st)))))
    as (Hr & _ & _ & Hc).
  assert (Hlast : default "Initializing analysis..."%string
                    (last (analysis_steps (Form.use_ai_insights formData))) =
                  (if Form.use_ai_insights formData then "Generating AI-powered report..."
                   else "Generating insights...")%string).
  { destruct (Form.use_ai_insights formData); reflexivity. }
  destruct reply as [err | [|] [err | data]]; try contradiction;
    cbn [setProgress setLoading setCurrentStep setResults setError results error loading
         progress currentStep];
    rewrite Hr, Hc; cbn [setProgress setLoading setCurrentStep setError results currentStep];
    rewrite Hlast; repeat split.
Qed.

Lemma analysis_failure_keeps_results_witness :
  let st := handleAnalyze (initial_form "2025-01-01" "2025-04-01")
              (PageFetchResponse true (inr answer_low)) blank_page in
  let st' := handleAnalyze (initial_form "2025-01-01" "2025-04-01")
               (reply_of (Error500 "Analysis failed")) st in
  results st' = Some answer_low /\
  error st' = Some "Analysis failed"%string /\
  loading st' = false.
Proof.
  cbv zeta.
  destruct (analysis_failure_keeps_results (initial_form "2025-01-01" "2025-04-01")
              (reply_of (Error500 "Analysis failed"))
              (handleAnalyze (initial_form "2025-01-01" "2025-04-01")
                 (PageFetchResponse true (inr answer_low)) blank_page))
    as (Hr & He & Hl & _); [exact I|].
  split; [rewrite Hr; reflexivity|]. split; [exact He | exact Hl].
Defined.

(** X18: the page and the handler together: whatever the form holds,
    when the handler's answer to the body of the form is what the page
    receives, [handleAnalyze] ends with results and without error, and
    the results carry the zone count of the form ([3] when it is [0]). *)
Theorem form_analysis_succeeds rt e formData st :
  exists r,
    POST rt e (Some (body_of_form formData)) = Json200 r /\
    let st' := handleAnalyze formData (reply_of (POST rt e (Some (body_of_form formData)))) st in
    results st' = Some r /\
    error st' = None /\
    loading st' = false /\
    zones_identified r =
      (if Qeq_bool (Form.num_zones formData) 0 then JNum 3
       else JNum (Form.num_zones formData)).
Proof.
  destruct (body_of_form_lookups formData) as (Hn & _).
  assert (Hz : zones_of (body_of_form formData) =
               if Qeq_bool (Form.num_zones formData) 0 then JNum 3
               else JNum (Form.num_zones formData)).
  { unfold zones_of, or_default. rewrite Hn. cbn [truthy].
    destruct (Qeq_bool (Form.num_zones formData) 0); reflexivity. }
  destruct (POST_parsed_ok rt e (body_of_form formData)
              (Number_toString rt (if Qeq_bool (Form.num_zones formData) 0 then 3%Q
                                   else Form.num_zones formData)))
    as (r & HP & Hzr & _).
  - discriminate.
  - rewrite Hz. destruct (Qeq_bool (Form.num_zones formData) 0); reflexivity.
  - exists r. split; [exact HP|]. rewrite HP. cbn [reply_of]. cbv zeta.
    unfold handleAnalyze.
    destruct (show_steps_writes (analysis_steps (Form.use_ai_insights formData)) 0
                (length (analysis_steps (Form.use_ai_insights formData)))
                (setCurrentStep "Initializing analysis..."
                   (setProgress 0 (setError None (setLoading true st)))))
      as (_ & _ & He & _).
    cbn [setProgress setLoading setCurrentStep setResults results error loading].
    rewrite He. repeat split. congruence.
Qed.

(** ** The zone circles of the map *)

(** X19: every zone circle of the map has a colour; for a whole number of
    at most seven zones (the range of the form's slider) the colours are
    pairwise different, and from the eighth zone on they repeat with
    period seven. *)
Theorem map_zone_colours bufferSize (q : Q) (n : nat) :
  Forall (fun c => is_Some (circle_color c)) (map_zones bufferSize q) /\
  ((n <= 7)%nat ->
   NoDup (circle_color <$> map_zones bufferSize (inject_Z (Z.of_nat n)))) /\
  (forall i c c',
     map_zones bufferSize q !! i = Some c ->
     map_zones bufferSize q !! (i + 7)%nat = Some c' ->
     circle_color c' = circle_color c).
Proof.
  split; [|split].
  - unfold map_zones. apply Forall_map, Forall_forall. intros i _.
    cbn [circle_color]. apply lookup_lt_is_Some.
    apply Nat.mod_upper_bound. discriminate.
  - intros Hn. unfold map_zones. rewrite Qceiling_Z, Nat2Z.id.
    rewrite <- list_fmap_compose.
    do 8 (destruct n as [|n]; [apply (bool_decide_unpack _); vm_compute; reflexivity|]).
    lia.
  - intros i c c' Hc Hc'. unfold map_zones in Hc, Hc'.
    rewrite list_lookup_fmap in Hc, Hc'.
    destruct (seq 0 (Z.to_nat (Qceiling q)) !! i) as [k|] eqn:Hk; [|discriminate].
    destruct (seq 0 (Z.to_nat (Qceiling q)) !! (i + 7)%nat) as [k'|] eqn:Hk'; [|discriminate].
    apply lookup_seq in Hk as [-> _]. apply lookup_seq in Hk' as [-> _].
    injection Hc as <-. injection Hc' as <-.
    change (zoneColors !! ((0 + (i + 7)) mod 7)%nat = zoneColors !! ((0 + i) mod 7)%nat).
    f_equal. rewrite !Nat.add_0_l.
    replace (i + 7)%nat with (i + 1 * 7)%nat by lia. apply Nat.Div0.mod_add.
Qed.

(** X20: for a whole number [n] of zones the map draws [n] circles,
    whose popups number them [1] to [n] in order, as the rows of the zone
    list are numbered. *)
Theorem map_zones_numbered bufferSize (n : nat) :
  circle_zone <$> map_zones bufferSize (inject_Z (Z.of_nat n)) = seq 1 n /\
  fst <$> field_zones (inject_Z (Z.of_nat n)) = seq 1 n.
Proof.
  assert (Hseq : forall k, (fun i => (i + 1)%nat) <$> seq 0 k = seq 1 k).
  { intros k. rewrite <- (fmap_S_seq 0 k). apply list_fmap_ext. intros _ i _. lia. }
  unfold map_zones, field_zones. rewrite Qceiling_Z, Qfloor_Z, Nat2Z.id.
  split; rewrite <- list_fmap_compose; apply Hseq.
Qed.

Lemma map_zone_colours_witness :
  NoDup (circle_color <$> map_zones 250 (inject_Z (Z.of_nat 7))).
Proof.
  destruct (map_zone_colours 250 7 7) as (_ & Hdistinct & _).
  apply Hdistinct. lia.
Defined.

(** ** What an answer depends on *)

Lemma POST_depends_on_observations_witness :
  Math_random env_low 26 <> Math_random env_low_then_high 26 /\
  POST sample_runtime env_low (Some empty_body) =
  POST sample_runtime env_low_then_high (Some empty_body).
Proof.
  split; [discriminate|].
  apply (POST_depends_on_observations sample_runtime env_low env_low_then_high
           (Some empty_body)).
  - intros k Hk.
    change (Math_random env_low k) with 0%Q.
    change (Math_random env_low_then_high k) with (if (k <? 26)%nat then 0%Q else 0.9%Q).
    destruct (Nat.ltb_spec k 26); [reflexivity | lia].
  - intros k Hk.
    change (Date_now env_low k) with 20000%Z.
    change (Date_now env_low_then_high k) with (if (k <? 17)%nat then 20000%Z else 20001%Z).
    destruct (Nat.ltb_spec k 17); [reflexivity | lia].
  - reflexivity.
Defined.
